(** * MultiAspectSampler: a shallow embedding of helpers/multiaspect/sampler.py

    The sampler is a Python class whose methods mutate [self], call into a
    bucket manager, a data backend and the [random] module, and may raise.
    It is embedded here as state-passing code over a record of the class's
    attributes, in a monad that threads the state through exceptions (a
    Python exception does not roll back the assignments made before it). *)

From Stdlib Require Import List String Ascii ZArith Bool Arith Lia.
From Stdlib Require Import DecimalString Permutation.
Import ListNotations.

Local Open Scope string_scope.
Local Open Scope list_scope.
Local Open Scope Z_scope.

Set Implicit Arguments.

(** ** Python values used by the sampler *)

Module Py.

(** [len(l)] *)
Definition len {A : Type} (l : list A) : Z := Z.of_nat (List.length l).

(** Truth value of a [str]: only the empty string is falsy. *)
Definition truthy (s : string) : bool := negb (String.eqb s "").

(** [x in l] for a list of strings. *)
Fixpoint mem (x : string) (l : list string) : bool :=
  match l with
  | [] => false
  | y :: t => String.eqb x y || mem x t
  end.

(** [l.index(x)]: position of the first occurrence; [None] stands for the
    [ValueError] Python raises when there is none. *)
Fixpoint index (x : string) (l : list string) : option nat :=
  match l with
  | [] => None
  | y :: t =>
      if String.eqb y x then Some O
      else match index x t with
           | Some i => Some (S i)
           | None => None
           end
  end.

(** [l.remove(x)]: drops the first occurrence of [x]. *)
Fixpoint remove (x : string) (l : list string) : list string :=
  match l with
  | [] => []
  | y :: t => if String.eqb y x then t else y :: remove x t
  end.

(** A [dict] with string keys, in insertion order. *)
Definition dict (V : Type) : Type := list (string * V).

(** [d[k]]; [None] stands for [KeyError]. *)
Fixpoint get {V : Type} (k : string) (d : dict V) : option V :=
  match d with
  | [] => None
  | (k', v) :: t => if String.eqb k' k then Some v else get k t
  end.

(** [d[k] = v]: overwrites in place or appends a new key. *)
Fixpoint set {V : Type} (k : string) (v : V) (d : dict V) : dict V :=
  match d with
  | [] => [(k, v)]
  | (k', v') :: t =>
      if String.eqb k' k then (k, v) :: t else (k', v') :: set k v t
  end.

(** [list(d.keys())] *)
Definition keys {V : Type} (d : dict V) : list string := map fst d.

End Py.

(** ** Exceptions and results *)

Inductive exn : Type :=
| IndexError          (* random.choice on an empty sequence, list index *)
| KeyError            (* aspect_ratio_bucket_indices[bucket] *)
| ValueError          (* list.index, random.sample, float(str) *)
| TypeError           (* int < None, list index by None *)
| ZeroDivisionError   (* width / height *)
| ArithmeticError     (* int(..) of a float in convert_to_human_readable *)
| NoImagesFound.      (* Exception("No images found in the dataset.") *)

(** [NoFuel] is not a Python outcome: it marks a run of the model that was
    cut before the modelled loop or recursion came to an end. *)
Inductive res (A : Type) : Type :=
| Ret (a : A)
| Exc (e : exn)
| NoFuel.

Arguments Ret {A} a.
Arguments Exc {A} e.
Arguments NoFuel {A}.

Definition of_option {A : Type} (e : exn) (o : option A) : res A :=
  match o with
  | Some a => Ret a
  | None => Exc e
  end.

(** ** Collaborators

    helpers/multiaspect/bucket.py and the data backends are outside the
    sampler's file: the sampler sees them through the calls below, and the
    development is parametric in them. *)

(** The bucket manager: an object with a state of its own.  The mutating
    methods return the state they leave behind; a failure inside one of them
    is not modelled. *)
Class BucketManager (BM : Type) : Type := {
  (** the attribute [aspect_ratio_bucket_indices], a dict from bucket key to
      the list of image paths filed under it *)
  aspect_ratio_bucket_indices : BM -> Py.dict (list string);
  is_seen : BM -> string -> bool;
  remove_image : BM -> string -> string -> BM;
  handle_small_image : BM -> string -> string -> bool -> BM;
  handle_incorrect_bucket : BM -> string -> string -> string -> BM;
  (** a dict holds each key once *)
  indices_keys_unique :
    forall bm, NoDup (Py.keys (aspect_ratio_bucket_indices bm))
}.

(** What the sampler reads of a decoded image: its size, and its size after
    [exif_transpose] ([None] when that call raises). *)
Record PILImage : Type := {
  width : Z;
  height : Z;
  exif_transposed : option (Z * Z)
}.

(** The data backend together with [Image.open]: [read_image] is [None] when
    [data_backend.read] or [Image.open] raises.  What the backend answers
    for a path stays the same during a run. *)
Record DataBackend : Type := {
  exists_ : string -> bool;
  read_image : string -> option PILImage
}.

(** The dict written by [save_state] and returned by
    [state_manager.load_state()]; a key may be missing from a loaded one. *)
Record SavedState (IX : Type) : Type := {
  saved_aspect_ratio_bucket_indices : option IX;
  saved_buckets : option (list string);
  saved_exhausted_buckets : option (list string);
  saved_batch_size : option Z;
  saved_current_bucket : option (option nat);
  saved_seen_images : option (Py.dict string);
  saved_current_epoch : option Z
}.

(** What the iterator hands to its consumer: the single path of the
    not-training branch, or the paths of one
    [for example in batch_accumulator: yield example] loop. *)
Inductive emission : Type :=
| EarlyYield (image_path : string)
| BatchRun (examples : list string).

Section MultiAspectSampler.

Context {BM : Type} {bucket_manager_ops : BucketManager BM}.

Variable data_backend : DataBackend.

(** Floating point stays outside the model.  [str_round2 w h] stands for
    [str(round(w / h, 2))] with [h] non-zero; [float_fails b] tells whether
    [float(b)] raises its [ValueError], and [human_readable_fails b r]
    whether [convert_to_human_readable(float(b), _, r)] raises in its
    conversions of a float to an int. *)
Variable str_round2 : Z -> Z -> string.
Variable float_fails : string -> bool.
Variable human_readable_fails : string -> Z -> bool.

(** The attributes of a [MultiAspectSampler].  [buckets_id] is not an
    attribute: it names the list object currently bound to [self.buckets],
    which [load_buckets] replaces and [list.remove] mutates in place. *)
Record Sampler : Type := {
  bucket_manager : BM;
  batch_size : Z;
  delete_unwanted_images : bool;
  minimum_image_size : option Z;
  resolution : Z;
  seen_images : Py.dict string;
  buckets : list string;
  buckets_id : nat;
  exhausted_buckets : list string;
  current_bucket : option nat;
  current_epoch : Z
}.

Definition with_bucket_manager (bm : BM) (s : Sampler) : Sampler :=
  {| bucket_manager := bm; batch_size := batch_size s;
     delete_unwanted_images := delete_unwanted_images s;
     minimum_image_size := minimum_image_size s; resolution := resolution s;
     seen_images := seen_images s; buckets := buckets s;
     buckets_id := buckets_id s; exhausted_buckets := exhausted_buckets s;
     current_bucket := current_bucket s; current_epoch := current_epoch s |}.

Definition with_seen_images (d : Py.dict string) (s : Sampler) : Sampler :=
  {| bucket_manager := bucket_manager s; batch_size := batch_size s;
     delete_unwanted_images := delete_unwanted_images s;
     minimum_image_size := minimum_image_size s; resolution := resolution s;
     seen_images := d; buckets := buckets s;
     buckets_id := buckets_id s; exhausted_buckets := exhausted_buckets s;
     current_bucket := current_bucket s; current_epoch := current_epoch s |}.

(** [self.buckets.remove(..)]: the same list object, new contents. *)
Definition with_buckets_in_place (l : list string) (s : Sampler) : Sampler :=
  {| bucket_manager := bucket_manager s; batch_size := batch_size s;
     delete_unwanted_images := delete_unwanted_images s;
     minimum_image_size := minimum_image_size s; resolution := resolution s;
     seen_images := seen_images s; buckets := l;
     buckets_id := buckets_id s; exhausted_buckets := exhausted_buckets s;
     current_bucket := current_bucket s; current_epoch := current_epoch s |}.

(** [self.buckets = ..]: a fresh list object. *)
Definition with_new_buckets (l : list string) (s : Sampler) : Sampler :=
  {| bucket_manager := bucket_manager s; batch_size := batch_size s;
     delete_unwanted_images := delete_unwanted_images s;
     minimum_image_size := minimum_image_size s; resolution := resolution s;
     seen_images := seen_images s; buckets := l;
     buckets_id := S (buckets_id s); exhausted_buckets := exhausted_buckets s;
     current_bucket := current_bucket s; current_epoch := current_epoch s |}.

Definition with_exhausted_buckets (l : list string) (s : Sampler) : Sampler :=
  {| bucket_manager := bucket_manager s; batch_size := batch_size s;
     delete_unwanted_images := delete_unwanted_images s;
     minimum_image_size := minimum_image_size s; resolution := resolution s;
     seen_images := seen_images s; buckets := buckets s;
     buckets_id := buckets_id s; exhausted_buckets := l;
     current_bucket := current_bucket s; current_epoch := current_epoch s |}.

Definition with_current_bucket (i : option nat) (s : Sampler) : Sampler :=
  {| bucket_manager := bucket_manager s; batch_size := batch_size s;
     delete_unwanted_images := delete_unwanted_images s;
     minimum_image_size := minimum_image_size s; resolution := resolution s;
     seen_images := seen_images s; buckets := buckets s;
     buckets_id := buckets_id s; exhausted_buckets := exhausted_buckets s;
     current_bucket := i; current_epoch := current_epoch s |}.

Definition with_current_epoch (e : Z) (s : Sampler) : Sampler :=
  {| bucket_manager := bucket_manager s; batch_size := batch_size s;
     delete_unwanted_images := delete_unwanted_images s;
     minimum_image_size := minimum_image_size s; resolution := resolution s;
     seen_images := seen_images s; buckets := buckets s;
     buckets_id := buckets_id s; exhausted_buckets := exhausted_buckets s;
     current_bucket := current_bucket s; current_epoch := e |}.

(** ** The machine: the sampler, the state of [random], what was yielded *)

Record Machine : Type := {
  self : Sampler;
  random_state : list nat;
  yielded : list emission
}.

Definition M (A : Type) : Type := Machine -> res A * Machine.

Definition ret {A : Type} (a : A) : M A := fun m => (Ret a, m).

Definition raise {A : Type} (e : exn) : M A := fun m => (Exc e, m).

Definition out_of_fuel {A : Type} : M A := fun m => (NoFuel, m).

Definition bind {A B : Type} (c : M A) (k : A -> M B) : M B :=
  fun m =>
    match c m with
    | (Ret a, m') => k a m'
    | (Exc e, m') => (Exc e, m')
    | (NoFuel, m') => (NoFuel, m')
    end.

Definition lift {A : Type} (r : res A) : M A := fun m => (r, m).

Definition get_self : M Sampler := fun m => (Ret (self m), m).

Definition update (f : Sampler -> Sampler) : M unit :=
  fun m =>
    (Ret tt,
     {| self := f (self m); random_state := random_state m;
        yielded := yielded m |}).

Definition emit (e : emission) : M unit :=
  fun m =>
    (Ret tt,
     {| self := self m; random_state := random_state m;
        yielded := yielded m ++ [e] |}).

Notation "x <- c ;; k" := (bind c (fun x => k))
  (at level 61, c at next level, right associativity).
Notation "c ;;; k" := (bind c (fun _ => k))
  (at level 61, right associativity).

(** ** The [random] module

    The generator is a source of numbers, consumed from the front; an
    exhausted source answers 0.  [random.choice] takes the element at the
    drawn position; [random.sample] draws positions from a shrinking pool, so
    that no position is drawn twice. *)

Definition next_random (rs : list nat) : nat * list nat :=
  match rs with
  | [] => (O, [])
  | r :: t => (r, t)
  end.

Definition set_random_state (rs : list nat) (m : Machine) : Machine :=
  {| self := self m; random_state := rs; yielded := yielded m |}.

Definition choice {A : Type} (l : list A) : M A :=
  fun m =>
    match l with
    | [] => (Exc IndexError, m)
    | a :: _ =>
        let (r, rs) := next_random (random_state m) in
        (Ret (nth (r mod List.length l) l a), set_random_state rs m)
    end.

Definition remove_nth {A : Type} (i : nat) (l : list A) : list A :=
  firstn i l ++ skipn (S i) l.

Fixpoint pick_distinct {A : Type} (k : nat) (pool : list A) (rs : list nat)
  : list A * list nat :=
  match k with
  | O => ([], rs)
  | S k' =>
      match pool with
      | [] => ([], rs)
      | a :: _ =>
          let (r, rs') := next_random rs in
          let i := (r mod List.length pool)%nat in
          let (xs, rs'') := pick_distinct k' (remove_nth i pool) rs' in
          (nth i pool a :: xs, rs'')
      end
  end.

(** [random.sample(population, k=k)] *)
Definition sample {A : Type} (population : list A) (k : Z) : M (list A) :=
  fun m =>
    if (k <? 0) || (Py.len population <? k) then (Exc ValueError, m)
    else
      let (xs, rs) := pick_distinct (Z.to_nat k) population (random_state m) in
      (Ret xs, set_random_state rs m).

(** ** Methods of the sampler *)

(** [load_buckets] *)
Definition load_buckets (s : Sampler) : list string :=
  Py.keys (aspect_ratio_bucket_indices (bucket_manager s)).

Definition unseen_of (bm : BM) (images : list string) : list string :=
  filter (fun image => negb (is_seen bm image)) images.

(** [_get_unseen_images]: [bucket] is [None] for the default argument; the
    test [if bucket:] also sends the empty key to the all-buckets branch. *)
Definition _get_unseen_images (s : Sampler) (bucket : option string)
  : res (list string) :=
  let bm := bucket_manager s in
  match bucket with
  | Some b =>
      if Py.truthy b then
        match Py.get b (aspect_ratio_bucket_indices bm) with
        | Some images => Ret (unseen_of bm images)
        | None => Exc KeyError
        end
      else
        Ret (flat_map (fun kv => unseen_of bm (snd kv))
                      (aspect_ratio_bucket_indices bm))
  | None =>
      Ret (flat_map (fun kv => unseen_of bm (snd kv))
                    (aspect_ratio_bucket_indices bm))
  end.

(** [_yield_random_image] *)
Definition _yield_random_image : M string :=
  s <- get_self ;;
  bucket <- choice (buckets s) ;;
  images <- lift (of_option KeyError
                    (Py.get bucket
                       (aspect_ratio_bucket_indices (bucket_manager s)))) ;;
  choice images.

(** [_bucket_name_to_id] *)
Definition _bucket_name_to_id (bucket_name : string) : M nat :=
  s <- get_self ;;
  lift (of_option ValueError (Py.index bucket_name (buckets s))).

(** [log_state] changes nothing, but its f-strings are evaluated whatever the
    log level: [float(b)], [aspect_ratio_bucket_indices[b]] and
    [convert_to_human_readable] for the active buckets, then [float(b)] and
    [convert_to_human_readable] for the exhausted ones. *)
Fixpoint log_active (r : Z) (ix : Py.dict (list string)) (bs : list string)
  : option exn :=
  match bs with
  | [] => None
  | b :: t =>
      if float_fails b then Some ValueError
      else
        match Py.get b ix with
        | None => Some KeyError
        | Some _ =>
            if human_readable_fails b r then Some ArithmeticError
            else log_active r ix t
        end
  end.

Fixpoint log_exhausted (r : Z) (bs : list string) : option exn :=
  match bs with
  | [] => None
  | b :: t =>
      if float_fails b then Some ValueError
      else if human_readable_fails b r then Some ArithmeticError
      else log_exhausted r t
  end.

Definition log_state : M unit :=
  s <- get_self ;;
  match log_active (resolution s)
          (aspect_ratio_bucket_indices (bucket_manager s)) (buckets s) with
  | Some e => raise e
  | None =>
      match log_exhausted (resolution s) (exhausted_buckets s) with
      | Some e => raise e
      | None => ret tt
      end
  end.

(** [_get_next_bucket], [change_bucket] and [_reset_buckets] call one another;
    the first two are written over the rollover they may call. *)
Definition get_next_bucket_with (reset : M unit) : M string :=
  s <- get_self ;;
  let available_buckets :=
    filter (fun bucket => negb (Py.mem bucket (exhausted_buckets s)))
           (buckets s) in
  match available_buckets with
  | [] =>
      reset ;;;
      s' <- get_self ;;
      choice (buckets s')
  | _ :: _ => choice available_buckets
  end.

Definition change_bucket_with (reset : M unit) : M unit :=
  next_bucket <- get_next_bucket_with reset ;;
  i <- _bucket_name_to_id next_bucket ;;
  update (with_current_bucket (Some i)).

(** [_reset_buckets]; [depth] bounds the nesting of rollovers. *)
Fixpoint reset_buckets_at (depth : nat) : M unit :=
  match depth with
  | O => out_of_fuel
  | S d =>
      s <- get_self ;;
      unseen <- lift (_get_unseen_images s None) ;;
      if (Py.len (seen_images s) =? 0) && (Py.len unseen =? 0)
      then raise NoImagesFound
      else
        log_state ;;;
        update (fun s => with_current_epoch (current_epoch s + 1) s) ;;;
        update (with_exhausted_buckets []) ;;;
        update (fun s => with_new_buckets (load_buckets s) s) ;;;
        update (with_seen_images []) ;;;
        change_bucket_with (reset_buckets_at d)
  end.

(** A rollover nested in a rollover finds the seen set empty: two levels are
    all that can happen (see [reset_buckets_cases]). *)
Definition _reset_buckets : M unit := reset_buckets_at 2.

Definition _get_next_bucket : M string := get_next_bucket_with _reset_buckets.

Definition change_bucket : M unit := change_bucket_with _reset_buckets.

(** [move_to_exhausted] *)
Definition move_to_exhausted : M unit :=
  s <- get_self ;;
  i <- lift (of_option TypeError (current_bucket s)) ;;
  bucket <- lift (of_option IndexError (nth_error (buckets s) i)) ;;
  update (fun s =>
            with_exhausted_buckets (exhausted_buckets s ++ [bucket]) s) ;;;
  update (fun s => with_buckets_in_place (Py.remove bucket (buckets s)) s) ;;;
  log_state.

(** [_handle_bucket_with_insufficient_images] *)
Definition _handle_bucket_with_insufficient_images (bucket : string) : M bool :=
  s <- get_self ;;
  images <- lift (of_option KeyError
                    (Py.get bucket
                       (aspect_ratio_bucket_indices (bucket_manager s)))) ;;
  if Py.len images <? batch_size s then
    (if Py.mem bucket (exhausted_buckets s) then ret tt
     else move_to_exhausted) ;;;
    change_bucket ;;;
    ret true
  else ret false.

Fixpoint total_unseen (s : Sampler) (bs : list string) : res Z :=
  match bs with
  | [] => Ret 0
  | bucket :: t =>
      match _get_unseen_images s (Some bucket) with
      | Ret l =>
          match total_unseen s t with
          | Ret n => Ret (Py.len l + n)
          | Exc e => Exc e
          | NoFuel => NoFuel
          end
      | Exc e => Exc e
      | NoFuel => NoFuel
      end
  end.

(** [_reset_if_not_enough_unseen_images] *)
Definition _reset_if_not_enough_unseen_images : M bool :=
  s <- get_self ;;
  total_unseen_images <- lift (total_unseen s (buckets s)) ;;
  if total_unseen_images <? batch_size s then _reset_buckets ;;; ret true
  else ret false.

(** [_yield_random_image_if_not_training]: [None] is the [False] returned in
    training mode.  [training] is what [StateTracker.status_training()]
    answers; the flag is read once for each pass of the iterator's loop. *)
Definition _yield_random_image_if_not_training (training : bool)
  : M (option string) :=
  if negb training then
    image_path <- _yield_random_image ;; ret (Some image_path)
  else ret None.

(** [_process_single_image].  Everything after the existence test runs under
    a bare [except:], which turns any exception into [None]: a failing
    [read] or [Image.open], the comparison of an [int] with [None], a failing
    [exif_transpose], a division by a zero height. *)
Definition _process_single_image (image_path bucket : string)
  : M (option string) :=
  if negb (exists_ data_backend image_path) then
    update (fun s =>
              with_bucket_manager
                (remove_image (bucket_manager s) image_path bucket) s) ;;;
    ret None
  else
    match read_image data_backend image_path with
    | None => ret None
    | Some image =>
        s <- get_self ;;
        match minimum_image_size s with
        | None => ret None
        | Some minimum =>
            if (width image <? minimum) || (height image <? minimum) then
              update (fun s =>
                        with_bucket_manager
                          (handle_small_image (bucket_manager s) image_path
                             bucket (delete_unwanted_images s)) s) ;;;
              ret None
            else
              match exif_transposed image with
              | None => ret None
              | Some (w, h) =>
                  if h =? 0 then ret None
                  else
                    let actual_bucket := str_round2 w h in
                    if negb (String.eqb actual_bucket bucket) then
                      update (fun s =>
                                with_bucket_manager
                                  (handle_incorrect_bucket (bucket_manager s)
                                     image_path bucket actual_bucket) s) ;;;
                      ret None
                    else ret (Some image_path)
              end
        end
    end.

(** [_validate_and_yield_images_from_samples] *)
Fixpoint _validate_and_yield_images_from_samples (training : bool)
  (samples : list string) (bucket : string) : M (list string) :=
  match samples with
  | [] => ret []
  | image_path :: rest =>
      processed_image_path <- _process_single_image image_path bucket ;;
      kept <- match processed_image_path with
              | Some p =>
                  if Py.truthy p then
                    (if training then
                       update (fun s =>
                                 with_seen_images
                                   (Py.set p bucket (seen_images s)) s)
                     else ret tt) ;;;
                    ret [p]
                  else ret []
              | None => ret []
              end ;;
      to_yield <- _validate_and_yield_images_from_samples training rest
                    bucket ;;
      ret (kept ++ to_yield)
  end.

(** ** The iterator *)

(** Lines 307 to 325: the [while len(available_images) >= self.batch_size]
    loop on one bucket.  Returns [available_images], [batch_accumulator] and
    [all_buckets_exhausted] as the loop leaves them. *)
Fixpoint draw_batches (fuel : nat) (training : bool) (bucket : string)
  (available_images batch_accumulator : list string)
  (all_buckets_exhausted : bool) : M (list string * list string * bool) :=
  match fuel with
  | O => out_of_fuel
  | S f =>
      s <- get_self ;;
      if Py.len available_images >=? batch_size s then
        samples <- sample available_images (batch_size s) ;;
        to_yield <- _validate_and_yield_images_from_samples training samples
                      bucket ;;
        let batch_accumulator := batch_accumulator ++ to_yield in
        if Py.len batch_accumulator >=? batch_size s then
          emit (BatchRun batch_accumulator) ;;;
          change_bucket ;;;
          ret (available_images, [], false)
        else
          s' <- get_self ;;
          available_images <- lift (_get_unseen_images s' (Some bucket)) ;;
          draw_batches f training bucket available_images batch_accumulator
            false
      else ret (available_images, batch_accumulator, all_buckets_exhausted)
  end.

(** The list a [for .. in enumerate(self.buckets)] loop walks is the object
    that was bound to [self.buckets] when the loop began: [view] is what it
    held when it was last known, and it is still [self.buckets] as long as
    the binding has not been replaced. *)
Definition iterated_list (id0 : nat) (view : list string) (s : Sampler)
  : list string :=
  if Nat.eqb (buckets_id s) id0 then buckets s else view.

(** Line 328 *)
Definition exhaustion_guard (s : Sampler) (idx : nat)
  (available_images : list string) : bool :=
  (Py.len available_images <? batch_size s)
  && (Z.of_nat idx =? Py.len (buckets s) - 1).

(** Lines 328 to 331; returns the contents of the walked list. *)
Definition exhaustion_step (id0 : nat) (view : list string) (idx : nat)
  (available_images : list string) : M (list string) :=
  s <- get_self ;;
  if exhaustion_guard s idx available_images then
    log_state ;;;
    move_to_exhausted ;;;
    s' <- get_self ;;
    change_bucket ;;;
    ret (iterated_list id0 view s')
  else ret view.

(** Lines 305 to 331 *)
Fixpoint for_each_bucket (fuel : nat) (training : bool) (id0 : nat)
  (view : list string) (idx : nat) (batch_accumulator : list string)
  (all_buckets_exhausted : bool) : M (list string * bool) :=
  match fuel with
  | O => out_of_fuel
  | S f =>
      s <- get_self ;;
      let view := iterated_list id0 view s in
      match nth_error view idx with
      | None => ret (batch_accumulator, all_buckets_exhausted)
      | Some bucket =>
          available_images <- lift (_get_unseen_images s (Some bucket)) ;;
          r <- draw_batches f training bucket available_images
                 batch_accumulator all_buckets_exhausted ;;
          let '(available_images, batch_accumulator, all_buckets_exhausted) :=
            r in
          view <- exhaustion_step id0 view idx available_images ;;
          for_each_bucket f training id0 view (S idx) batch_accumulator
            all_buckets_exhausted
      end
  end.

(** Lines 304 to 334: the body of [while True] past the early yield. *)
Definition training_pass (fuel : nat) (training : bool)
  (batch_accumulator : list string) : M (list string) :=
  s <- get_self ;;
  r <- for_each_bucket fuel training (buckets_id s) (buckets s) O
         batch_accumulator true ;;
  let '(batch_accumulator, all_buckets_exhausted) := r in
  (if all_buckets_exhausted then _reset_buckets else ret tt) ;;;
  ret batch_accumulator.

(** One pass of the body of [while True]. *)
Definition iter_pass (fuel : nat) (training : bool)
  (batch_accumulator : list string) : M (list string) :=
  early_yield <- _yield_random_image_if_not_training training ;;
  match early_yield with
  | Some image_path =>
      if Py.truthy image_path then
        emit (EarlyYield image_path) ;;; ret batch_accumulator
      else training_pass fuel training batch_accumulator
  | None => training_pass fuel training batch_accumulator
  end.

Fixpoint iter_passes (fuel : nat) (flags : list bool)
  (batch_accumulator : list string) : M (list string) :=
  match flags with
  | [] => ret batch_accumulator
  | training :: later =>
      batch_accumulator <- iter_pass fuel training batch_accumulator ;;
      iter_passes fuel later batch_accumulator
  end.

(** [__iter__], run for as many passes of its endless loop as there are
    answers of the mode flag in [flags]. *)
Definition __iter__ (fuel : nat) (flags : list bool) : M (list string) :=
  iter_passes fuel flags [].

(** [__len__] *)
Definition __len__ (s : Sampler) : Z :=
  fold_right (fun kv n => Py.len (snd kv) + n) 0
    (aspect_ratio_bucket_indices (bucket_manager s)).

(** ** Saving and loading *)

(** The dict [save_state] hands to the state manager. *)
Definition save_state (s : Sampler) : SavedState (Py.dict (list string)) :=
  {| saved_aspect_ratio_bucket_indices :=
       Some (aspect_ratio_bucket_indices (bucket_manager s));
     saved_buckets := Some (buckets s);
     saved_exhausted_buckets := Some (exhausted_buckets s);
     saved_batch_size := Some (batch_size s);
     saved_current_bucket := Some (current_bucket s);
     saved_seen_images := Some (seen_images s);
     saved_current_epoch := Some (current_epoch s) |}.

(** [load_states]: [seen_file] is what [state_manager.load_seen_images()]
    returns and [previous_state] what [state_manager.load_state()] returns. *)
Definition load_states (seen_file : Py.dict string)
  (previous_state : SavedState (Py.dict (list string))) : M unit :=
  update (with_seen_images seen_file) ;;;
  update (fun s => with_new_buckets (load_buckets s) s) ;;;
  update (with_exhausted_buckets
            (match saved_exhausted_buckets previous_state with
             | Some l => l
             | None => []
             end)) ;;;
  update (with_current_epoch
            (match saved_current_epoch previous_state with
             | Some e => e
             | None => 1
             end)) ;;;
  match saved_seen_images previous_state with
  | Some d => update (with_seen_images d)
  | None => ret tt
  end ;;;
  log_state.

(** The object [__init__] has built when it calls [load_states]: the
    attributes that call assigns are not bound yet. *)
Definition blank (bm : BM) (batch : Z) (delete_unwanted : bool)
  (minimum : option Z) (res_px : Z) : Sampler :=
  {| bucket_manager := bm; batch_size := batch;
     delete_unwanted_images := delete_unwanted;
     minimum_image_size := minimum; resolution := res_px;
     seen_images := []; buckets := []; buckets_id := O;
     exhausted_buckets := []; current_bucket := None; current_epoch := 0 |}.

(** [__init__] *)
Definition __init__ (bm : BM) (batch : Z) (delete_unwanted : bool)
  (minimum : option Z) (res_px : Z) (seen_file : Py.dict string)
  (previous_state : SavedState (Py.dict (list string)))
  (rs : list nat) : res unit * Machine :=
  (load_states seen_file previous_state ;;; change_bucket)
    {| self := blank bm batch delete_unwanted minimum res_px;
       random_state := rs; yielded := [] |}.

(** ** Notions used in the statements *)

Definition set_self (s : Sampler) (m : Machine) : Machine :=
  {| self := s; random_state := random_state m; yielded := yielded m |}.

(** The assignments of a rollover, lines 126 to 129, as one step. *)
Definition rolled_over (s : Sampler) : Sampler :=
  with_seen_images []
    (with_new_buckets (load_buckets s)
       (with_exhausted_buckets []
          (with_current_epoch (current_epoch s + 1) s))).

(** The two list updates of [move_to_exhausted] as one step. *)
Definition moved (bucket : string) (s : Sampler) : Sampler :=
  with_buckets_in_place (Py.remove bucket (buckets s))
    (with_exhausted_buckets (exhausted_buckets s ++ [bucket]) s).

(** Line 119 *)
Definition nothing_seen_or_unseen (s : Sampler) : bool :=
  (Py.len (seen_images s) =? 0)
  && (Py.len (flat_map (fun kv => unseen_of (bucket_manager s) (snd kv))
                (aspect_ratio_bucket_indices (bucket_manager s))) =? 0).

(** The sampler [load_states] leaves, before it logs. *)
Definition loaded (seen_file : Py.dict string)
  (previous_state : SavedState (Py.dict (list string))) (s : Sampler)
  : Sampler :=
  let s' :=
    with_current_epoch
      (match saved_current_epoch previous_state with
       | Some e => e
       | None => 1
       end)
      (with_exhausted_buckets
         (match saved_exhausted_buckets previous_state with
          | Some l => l
          | None => []
          end)
         (with_new_buckets (load_buckets s) (with_seen_images seen_file s)))
  in
  match saved_seen_images previous_state with
  | Some d => with_seen_images d s'
  | None => s'
  end.

(** The two lists of bucket keys share no key, and [buckets], which comes
    from the keys of a dict, holds none twice. *)
Definition disjoint_lists (s : Sampler) : Prop :=
  NoDup (buckets s)
  /\ forall b, In b (buckets s) -> ~ In b (exhausted_buckets s).

(** Every method of the class that can change a sampler once [__init__]
    has built it, [load_states] (a public method with a path of its own)
    among them; [Iterate] resumes the iterator for some passes with the
    batch accumulator it was suspended with.  The methods that only read
    ([load_buckets], [_bucket_name_to_id], [_get_unseen_images],
    [__len__], [convert_to_human_readable]) leave the sampler as it is. *)
Inductive operation : Type :=
| Load_states (seen_file : Py.dict string)
    (previous_state : SavedState (Py.dict (list string)))
| Save_state
| Log_state
| Get_next_bucket
| Change_bucket
| Reset_buckets
| Move_to_exhausted
| Handle_bucket_with_insufficient_images (bucket : string)
| Reset_if_not_enough_unseen_images
| Yield_random_image_if_not_training (training : bool)
| Process_single_image (image_path bucket : string)
| Validate_and_yield_images_from_samples (training : bool)
    (samples : list string) (bucket : string)
| Iterate (fuel : nat) (flags : list bool) (batch_accumulator : list string).

(** The machine a call leaves behind, however the call ends. *)
Definition perform (m : Machine) (o : operation) : Machine :=
  match o with
  | Load_states seen_file previous_state =>
      snd (load_states seen_file previous_state m)
  | Save_state => m
  | Log_state => snd (log_state m)
  | Get_next_bucket => snd (_get_next_bucket m)
  | Change_bucket => snd (change_bucket m)
  | Reset_buckets => snd (_reset_buckets m)
  | Move_to_exhausted =>
      snd (move_to_exhausted m)
  | Handle_bucket_with_insufficient_images b =>
      snd (_handle_bucket_with_insufficient_images b m)
  | Reset_if_not_enough_unseen_images =>
      snd (_reset_if_not_enough_unseen_images m)
  | Yield_random_image_if_not_training t =>
      snd (_yield_random_image_if_not_training t m)
  | Process_single_image p b =>
      snd (_process_single_image p b m)
  | Validate_and_yield_images_from_samples t l b =>
      snd (_validate_and_yield_images_from_samples t
             l b m)
  | Iterate fuel flags acc =>
      snd (iter_passes
             fuel flags acc m)
  end.

Definition perform_all (ops : list operation) (m : Machine)
  : Machine :=
  fold_left perform ops m.

(** The four checks of validation, in the order they are made. *)
Definition resource_exists (image_path : string) : Prop :=
  exists_ data_backend image_path = true.

Definition decodes_to (image_path : string) (image : PILImage) : Prop :=
  read_image data_backend image_path = Some image.

Definition large_enough (s : Sampler) (image : PILImage) : Prop :=
  exists minimum,
    minimum_image_size s = Some minimum
    /\ minimum <= width image /\ minimum <= height image.


(** The bucket key computed from the image once [exif_transpose] has been
    applied. *)
Definition actual_bucket_of (image : PILImage) (key : string) : Prop :=
  exists w h,
    exif_transposed image = Some (w, h) /\ h <> 0 /\ key = str_round2 w h.

Definition passes_all_checks (s : Sampler) (image_path bucket : string)
  : Prop :=
  resource_exists image_path
  /\ exists image,
       decodes_to image_path image
       /\ large_enough s image
       /\ actual_bucket_of image bucket.


(** [R] holds from the sampler before a run of [c] to the sampler after it,
    however the run ends. *)
Definition respects (R : Sampler -> Sampler -> Prop) {A : Type} (c : M A)
  : Prop :=
  forall m : Machine, R (self m) (self (snd (c m))).

(** The constructor arguments kept as attributes. *)
Definition same_configuration (s s' : Sampler) : Prop :=
  batch_size s' = batch_size s
  /\ delete_unwanted_images s' = delete_unwanted_images s
  /\ minimum_image_size s' = minimum_image_size s
  /\ resolution s' = resolution s.

(** [current_bucket] is the index of a key of [buckets] that is not in
    [exhausted_buckets]. *)
Definition points_at_available (s : Sampler) : Prop :=
  exists i bucket,
    current_bucket s = Some i
    /\ nth_error (buckets s) i = Some bucket
    /\ ~ In bucket (exhausted_buckets s).

(** The four checks of validation as one test; [minimum] is the sampler's
    [minimum_image_size]. *)
Definition accepts (minimum : option Z) (bucket image_path : string) : bool :=
  exists_ data_backend image_path
  && match read_image data_backend image_path, minimum with
     | Some image, Some least =>
         negb ((width image <? least) || (height image <? least))
         && match exif_transposed image with
            | Some (w, h) =>
                negb (h =? 0) && String.eqb (str_round2 w h) bucket
            | None => false
            end
     | _, _ => false
     end.

(** A run of [c] yields nothing and leaves [batch_size] alone, however it
    ends. *)
Definition steady {A : Type} (c : M A) : Prop :=
  forall m,
    yielded (snd (c m)) = yielded m
    /\ batch_size (self (snd (c m))) = batch_size (self m).

(** A batch accumulator between two yields: empty, or short of a batch. *)
Definition short_of_a_batch (size : Z) (batch_accumulator : list string)
  : Prop :=
  batch_accumulator = [] \/ Py.len batch_accumulator < size.

(** What the iterator may yield: a run of at least [size] paths and, for a
    positive [size], of fewer than twice [size]; or a single path, where
    [early] holds. *)
Definition well_sized (size : Z) (early : Prop) (e : emission) : Prop :=
  match e with
  | BatchRun examples =>
      size <= Py.len examples /\ (0 < size -> Py.len examples < 2 * size)
  | EarlyYield _ => early
  end.

(** If the sampler satisfies [P] when [c] starts and [c] returns, the
    sampler satisfies [Q] then. *)
Definition on_return {A : Type} (P Q : Sampler -> Prop) (c : M A) : Prop :=
  forall m r m', P (self m) -> c m = (Ret r, m') -> Q (self m').

End MultiAspectSampler.

(** ** A bucket store to run the sampler on *)

Module Store.

(** Modelled from the spec: the Bucket Store of helpers/multiaspect/bucket.py,
    which is not among the sources.  It owns the mapping from bucket key to
    item identifiers and a seen set of its own; [remove] takes an identifier
    out of a bucket, the small-image handler evicts it from the index, and
    the incorrect-bucket handler re-files it under the correct key. *)
Record t : Type := {
  index : Py.dict (list string);
  seen : list string
}.

Fixpoint drop_key {V : Type} (k : string) (d : Py.dict V) : Py.dict V :=
  match d with
  | [] => []
  | (k', v) :: rest =>
      if String.eqb k' k then drop_key k rest else (k', v) :: drop_key k rest
  end.

(** A dict keeps one entry for a key. *)
Fixpoint as_dict {V : Type} (d : list (string * V)) : Py.dict V :=
  match d with
  | [] => []
  | (k, v) :: rest => (k, v) :: drop_key k (as_dict rest)
  end.

Definition items (st : t) (bucket : string) : list string :=
  match Py.get bucket (as_dict (index st)) with
  | Some l => l
  | None => []
  end.

Definition remove (st : t) (image_path bucket : string) : t :=
  match Py.get bucket (as_dict (index st)) with
  | Some l =>
      {| index := Py.set bucket (Py.remove image_path l) (as_dict (index st));
         seen := seen st |}
  | None => st
  end.

Definition handle_small (st : t) (image_path bucket : string) (delete : bool)
  : t :=
  remove st image_path bucket.

Definition refile (st : t) (image_path bucket actual_bucket : string) : t :=
  let st' := remove st image_path bucket in
  {| index := Py.set actual_bucket (items st' actual_bucket ++ [image_path])
                (as_dict (index st'));
     seen := seen st' |}.

Lemma drop_key_keys {V : Type} (k k' : string) (d : Py.dict V) :
  In k' (Py.keys (drop_key k d)) -> In k' (Py.keys d) /\ k' <> k.
Proof.
  induction d as [|[k0 v] d IH]; simpl; [tauto|].
  destruct (String.eqb_spec k0 k) as [->|Hne]; simpl.
  - intros H. destruct (IH H). tauto.
  - intros [<-|H]; [tauto|]. destruct (IH H). tauto.
Qed.

Lemma drop_key_nodup {V : Type} (k : string) (d : Py.dict V) :
  NoDup (Py.keys d) -> NoDup (Py.keys (drop_key k d)).
Proof.
  induction d as [|[k0 v] d IH]; simpl; intros H; [constructor|].
  inversion H as [|? ? Hnotin Hnd]; subst.
  destruct (String.eqb k0 k); [auto|].
  simpl. constructor; [|auto].
  intros Hin. apply drop_key_keys in Hin. tauto.
Qed.

Lemma as_dict_nodup {V : Type} (d : list (string * V)) :
  NoDup (Py.keys (as_dict d)).
Proof.
  induction d as [|[k v] d IH]; simpl; constructor.
  - intros Hin. apply drop_key_keys in Hin. tauto.
  - apply drop_key_nodup, IH.
Qed.

#[global] Instance bucket_manager : BucketManager t := {|
  aspect_ratio_bucket_indices := fun st => as_dict (index st);
  is_seen := fun st image_path => Py.mem image_path (seen st);
  remove_image := remove;
  handle_small_image := handle_small;
  handle_incorrect_bucket := refile;
  indices_keys_unique := fun st => as_dict_nodup (index st)
|}.

End Store.

(** ** Concrete collaborators for the worked runs *)

Module Demo.

Definition digit (d : Z) : string :=
  NilZero.string_of_int (Z.to_int d).

(** The ratio [w / h] rounded to two places in exact arithmetic (ties to
    even) and printed the way Python prints a float with at most two
    decimals.  It stands in for [str(round(w / h, 2))] on the sizes used in
    the runs below, where the quotient is far from a rounding boundary. *)
Definition str_round2 (w h : Z) : string :=
  let a := 100 * w in
  let q := a / h in
  let r := a mod h in
  let cents :=
    if 2 * r <? h then q
    else if h <? 2 * r then q + 1
    else if Z.even q then q else q + 1 in
  let frac := cents mod 100 in
  String.append (digit (cents / 100))
    (String.append "."
       (if frac mod 10 =? 0 then digit (frac / 10)
        else String.append (digit (frac / 10)) (digit (frac mod 10)))).

(** Every bucket key of the runs parses as a float and prints. *)
Definition float_fails (b : string) : bool := false.

Definition human_readable_fails (b : string) (r : Z) : bool := false.

(** An upright image of the given size. *)
Definition image (w h : Z) : PILImage :=
  {| width := w; height := h; exif_transposed := Some (w, h) |}.

(** A backend holding the listed files, all of them readable. *)
Definition backend (files : Py.dict PILImage) : DataBackend :=
  {| exists_ := fun p => match Py.get p files with
                         | Some _ => true
                         | None => false
                         end;
     read_image := fun p => Py.get p files |}.

(** A stand-in for [float()] that fails on some strings: it parses the
    strings made of decimal digits and dots, and no others. *)
Definition decimal_char (c : ascii) : bool :=
  let n := nat_of_ascii c in
  ((48 <=? n) && (n <=? 57) || (n =? 46))%nat.

Definition not_a_decimal (b : string) : bool :=
  String.eqb b "" || negb (forallb decimal_char (list_ascii_of_string b)).

Definition no_saved_state : SavedState (Py.dict (list string)) :=
  {| saved_aspect_ratio_bucket_indices := None; saved_buckets := None;
     saved_exhausted_buckets := None; saved_batch_size := None;
     saved_current_bucket := None; saved_seen_images := None;
     saved_current_epoch := None |}.

End Demo.

(** ** Worked runs *)

Module Runs.

Import Demo.

Definition square : PILImage := image 100 100.

Definition wide : PILImage := image 200 100.

(** Two buckets of two images each, every file present and well filed. *)
Definition two_buckets : Store.t :=
  {| Store.index := [("1.0", ["a"; "b"]); ("2.0", ["c"; "d"])];
     Store.seen := [] |}.

Definition two_buckets_files : Py.dict PILImage :=
  [("a", square); ("b", square); ("c", wide); ("d", wide)].

(** A full bucket, a bucket of two and an empty one. *)
Definition three_buckets : Store.t :=
  {| Store.index :=
       [("1.0", ["a"; "b"; "c"; "d"; "e"]); ("3.0", ["f"; "g"]); ("2.0", [])];
     Store.seen := [] |}.

Definition three_buckets_files : Py.dict PILImage :=
  [("a", square); ("b", square); ("c", square); ("d", square);
   ("e", square); ("f", image 300 100); ("g", image 300 100)].

(** A first run: the sampler is built without a saved state and its iterator
    makes one pass in training mode. *)
Definition first_start : res unit * Machine :=
  __init__ float_fails human_readable_fails three_buckets 2 false (Some 64)
    1024 [] no_saved_state [].

Definition first_run : res (list string) * Machine :=
  __iter__ (backend three_buckets_files) str_round2 float_fails
    human_readable_fails 20 [true] (snd first_start).

(** The state saved after the first run. *)
Definition snapshot : SavedState (Py.dict (list string)) :=
  save_state (self (snd first_run)).

(** A fresh sampler built from [snapshot], over the same buckets. *)
Definition resumed : res unit * Machine :=
  __init__ float_fails human_readable_fails three_buckets 2 false (Some 64)
    1024 [] snapshot [].

(** One pass of the iterator, in training mode, on the resumed sampler. *)
Definition resumed_pass : res (list string) * Machine :=
  __iter__ (backend three_buckets_files) str_round2 float_fails
    human_readable_fails 20 [true] (snd resumed).

(** Bucket ["1.0"] lists a file that is gone. *)
Definition stale : Store.t :=
  {| Store.index := [("1.0", ["a"; "b"]); ("2.0", ["d"; "e"])];
     Store.seen := [] |}.

Definition stale_files : Py.dict PILImage :=
  [("b", square); ("d", wide); ("e", wide)].

Definition stale_start : res unit * Machine :=
  __init__ float_fails human_readable_fails stale 2 false (Some 64) 1024 []
    no_saved_state [].

Definition stale_pass : res (list string) * Machine :=
  __iter__ (backend stale_files) str_round2 float_fails human_readable_fails 20
    [true] (snd stale_start).

(** A full bucket and an empty one. *)
Definition lopsided : Store.t :=
  {| Store.index := [("1.0", ["a"; "b"; "c"; "d"; "e"]); ("2.0", [])];
     Store.seen := [] |}.

Definition lopsided_start : res unit * Machine :=
  __init__ float_fails human_readable_fails lopsided 2 false (Some 64) 1024 []
    no_saved_state [].

(** The exhaustion step of the loop, reached at index 1 on bucket ["2.0"],
    which has no unseen image. *)
Definition lopsided_step : res (list string) * Machine :=
  exhaustion_step float_fails human_readable_fails 1 ["1.0"; "2.0"] 1 []
    (snd lopsided_start).

(** A store without any bucket, and a sampler that remembers an image. *)
Definition no_buckets : Store.t := {| Store.index := []; Store.seen := [] |}.

Definition remembering : Machine :=
  {| self :=
       {| bucket_manager := no_buckets; batch_size := 2;
          delete_unwanted_images := false; minimum_image_size := Some 64;
          resolution := 1024; seen_images := [("a", "1.0")]; buckets := [];
          buckets_id := 1; exhausted_buckets := []; current_bucket := None;
          current_epoch := 1 |};
     random_state := []; yielded := [] |}.

(** One image in each of two buckets; bucket ["2.0"] has been exhausted. *)
Definition one_each : Store.t :=
  {| Store.index := [("1.0", ["a"]); ("2.0", ["b"])]; Store.seen := [] |}.

Definition preview (rs : list nat) : Machine :=
  {| self :=
       {| bucket_manager := one_each; batch_size := 2;
          delete_unwanted_images := false; minimum_image_size := Some 64;
          resolution := 1024; seen_images := []; buckets := ["1.0"];
          buckets_id := 1; exhausted_buckets := ["2.0"];
          current_bucket := Some O; current_epoch := 1 |};
     random_state := rs; yielded := [] |}.

Definition lopsided_files : Py.dict PILImage :=
  [("a", square); ("b", square); ("c", square); ("d", square);
   ("e", square)].

Definition lopsided_pass : res (list string) * Machine :=
  __iter__ (backend lopsided_files) str_round2 float_fails
    human_readable_fails 20 [true] (snd lopsided_start).

(** The sampler of [lopsided_start] after two rollovers. *)
Definition third_epoch : Machine :=
  perform_all (backend lopsided_files) str_round2 float_fails
    human_readable_fails [Reset_buckets; Reset_buckets] (snd lopsided_start).

(** Two buckets of two, each listing one file that is gone. *)
Definition half_gone : Store.t :=
  {| Store.index := [("1.0", ["p"; "q"]); ("2.0", ["x"; "b"])];
     Store.seen := [] |}.

Definition half_gone_files : Py.dict PILImage := [("q", square); ("b", wide)].

Definition half_gone_start : res unit * Machine :=
  __init__ float_fails human_readable_fails half_gone 2 false (Some 64) 1024
    [] no_saved_state [].

Definition half_gone_pass : res (list string) * Machine :=
  __iter__ (backend half_gone_files) str_round2 float_fails
    human_readable_fails 20 [true] (snd half_gone_start).

(** The sampler built with [minimum_image_size] left at its default. *)
Definition defaulted : res unit * Machine :=
  __init__ float_fails human_readable_fails two_buckets 2 false None 1024 []
    no_saved_state [].

(** A sampler over the store without buckets that has seen nothing. *)
Definition destitute : Machine :=
  {| self :=
       {| bucket_manager := no_buckets; batch_size := 2;
          delete_unwanted_images := false; minimum_image_size := Some 64;
          resolution := 1024; seen_images := []; buckets := [];
          buckets_id := 1; exhausted_buckets := []; current_bucket := None;
          current_epoch := 1 |};
     random_state := []; yielded := [] |}.

End Runs.

(** * Properties *)

Notation "x <- c ;; k" := (bind c (fun x => k))
  (at level 61, c at next level, right associativity).
Notation "c ;;; k" := (bind c (fun _ => k))
  (at level 61, right associativity).

Section Properties.

Context {BM : Type} {bucket_manager_ops : BucketManager BM}.

Variable data_backend : DataBackend.
Variable str_round2 : Z -> Z -> string.
Variable float_fails : string -> bool.
Variable human_readable_fails : string -> Z -> bool.

(** *** Reading a run of the monad *)

Lemma bind_inv {A B : Type} (c : M A) (k : A -> M B) (m m' : @Machine BM)
  (r : res B) :
  bind c k m = (r, m') ->
  (exists a m1, c m = (Ret a, m1) /\ k a m1 = (r, m'))
  \/ (exists e, c m = (Exc e, m') /\ r = Exc e)
  \/ (c m = (NoFuel, m') /\ r = NoFuel).
Proof.
  unfold bind. destruct (c m) as [[a|e|] m1]; intros H.
  - left. eauto.
  - right. left. inversion H; subst. eauto.
  - right. right. inversion H; subst. eauto.
Qed.

Lemma log_state_frame (m : @Machine BM) :
  log_state float_fails human_readable_fails m
  = (fst (log_state float_fails human_readable_fails m), m).
Proof.
  unfold log_state, bind, get_self, raise, ret.
  destruct (log_active _ _ _ _ _); [reflexivity|].
  destruct (log_exhausted _ _ _ _); reflexivity.
Qed.

Lemma reset_buckets_at_S (d : nat) (m : @Machine BM) :
  reset_buckets_at float_fails human_readable_fails (S d) m
  = if nothing_seen_or_unseen (self m) then (Exc NoImagesFound, m)
    else
      match fst (log_state float_fails human_readable_fails m) with
      | Ret _ =>
          change_bucket_with
            (reset_buckets_at float_fails human_readable_fails d)
            (set_self (rolled_over (self m)) m)
      | Exc e => (Exc e, m)
      | NoFuel => (NoFuel, m)
      end.
Proof.
  cbn [reset_buckets_at]. unfold nothing_seen_or_unseen.
  unfold bind at 1. unfold get_self at 1. cbn [_get_unseen_images].
  unfold bind at 1. unfold lift at 1.
  destruct (_ && _); [reflexivity|].
  unfold bind at 1. rewrite log_state_frame.
  destruct (fst (log_state float_fails human_readable_fails m)); reflexivity.
Qed.

Lemma move_to_exhausted_eq (m : @Machine BM) :
  move_to_exhausted float_fails human_readable_fails m
  = match current_bucket (self m) with
    | None => (Exc TypeError, m)
    | Some i =>
        match nth_error (buckets (self m)) i with
        | None => (Exc IndexError, m)
        | Some bucket =>
            log_state float_fails human_readable_fails
              (set_self (moved bucket (self m)) m)
        end
    end.
Proof.
  unfold move_to_exhausted, bind, get_self, lift, of_option.
  destruct (current_bucket (self m)); [|reflexivity].
  destruct (nth_error (buckets (self m)) n); reflexivity.
Qed.

(** *** Relations kept by every method

    [R] relates the sampler before a call to the sampler after it.  A
    reflexive and transitive [R] that holds across the five kinds of
    assignment the methods make holds across every method, whether it
    returns, raises or is cut short. *)

Section Preservation.

Variable R : @Sampler BM -> @Sampler BM -> Prop.

Hypothesis R_refl : forall s, R s s.
Hypothesis R_trans : forall s1 s2 s3, R s1 s2 -> R s2 s3 -> R s1 s3.
Hypothesis R_bucket_manager : forall s bm, R s (with_bucket_manager bm s).
Hypothesis R_seen_images : forall s d, R s (with_seen_images d s).
Hypothesis R_current_bucket : forall s i, R s (with_current_bucket i s).
Hypothesis R_rolled_over : forall s, R s (rolled_over s).
Hypothesis R_moved : forall s bucket, R s (moved bucket s).

Lemma respects_bind {A B : Type} (c : M A) (k : A -> M B) :
  respects R c -> (forall a, respects R (k a)) -> respects R (bind c k).
Proof.
  intros Hc Hk m. unfold bind. specialize (Hc m).
  destruct (c m) as [[a|e|] m1]; simpl in *; auto.
  eapply R_trans; [exact Hc|apply Hk].
Qed.

Lemma respects_ret {A : Type} (a : A) : respects R (ret a).
Proof. intros m. apply R_refl. Qed.

Lemma respects_raise {A : Type} (e : exn) : respects R (@raise BM A e).
Proof. intros m. apply R_refl. Qed.

Lemma respects_out_of_fuel {A : Type} : respects R (@out_of_fuel BM A).
Proof. intros m. apply R_refl. Qed.

Lemma respects_lift {A : Type} (r : res A) : respects R (lift r).
Proof. intros m. apply R_refl. Qed.

Lemma respects_get_self : respects R get_self.
Proof. intros m. apply R_refl. Qed.

Lemma respects_emit (e : emission) : respects R (emit e).
Proof. intros m. apply R_refl. Qed.

Lemma respects_choice {A : Type} (l : list A) : respects R (choice l).
Proof.
  intros m. unfold choice. destruct l; [apply R_refl|].
  destruct (next_random (random_state m)). apply R_refl.
Qed.

Lemma respects_sample {A : Type} (l : list A) (k : Z) : respects R (sample l k).
Proof.
  intros m. unfold sample. destruct (_ || _); [apply R_refl|].
  destruct (pick_distinct _ _ _). apply R_refl.
Qed.

Lemma respects_log_state :
  respects R (log_state float_fails human_readable_fails).
Proof. intros m. rewrite log_state_frame. apply R_refl. Qed.

Lemma respects_update (f : @Sampler BM -> @Sampler BM) :
  (forall s, R s (f s)) -> respects R (update f).
Proof. intros H m. apply H. Qed.

Create HintDb respects.

#[local] Hint Resolve respects_ret respects_raise respects_out_of_fuel
  respects_lift
  respects_get_self respects_emit respects_choice respects_sample
  respects_log_state : respects.

Ltac respects_step :=
  first
    [ solve [auto with respects]
    | apply respects_bind; [|intros ?]
    | match goal with
      | |- respects R (if ?b then _ else _) => destruct b
      | |- respects R (match ?x with _ => _ end) => destruct x
      | |- respects R (let (_, _) := ?x in _) => destruct x
      end ].

Ltac respects_auto := repeat respects_step.

Lemma respects_yield_random_image : respects R _yield_random_image.
Proof. unfold _yield_random_image. respects_auto. Qed.

Lemma respects_bucket_name_to_id (b : string) :
  respects R (_bucket_name_to_id b).
Proof. unfold _bucket_name_to_id. respects_auto. Qed.

Lemma respects_get_next_bucket_with (reset : M unit) :
  respects R reset -> respects R (get_next_bucket_with reset).
Proof. intros H. unfold get_next_bucket_with. respects_auto. Qed.

Lemma respects_change_bucket_with (reset : M unit) :
  respects R reset -> respects R (change_bucket_with reset).
Proof.
  intros H. unfold change_bucket_with.
  apply respects_bind; [apply respects_get_next_bucket_with, H|intros b].
  apply respects_bind; [apply respects_bucket_name_to_id|intros i].
  apply respects_update. intros s. apply R_current_bucket.
Qed.

Lemma respects_reset_buckets_at (d : nat) :
  respects R (reset_buckets_at float_fails human_readable_fails d).
Proof.
  induction d as [|d IH]; [apply respects_out_of_fuel|].
  intros m. rewrite reset_buckets_at_S.
  destruct (nothing_seen_or_unseen (self m)); [apply R_refl|].
  destruct (fst (log_state float_fails human_readable_fails m));
    try apply R_refl.
  eapply R_trans; [apply (R_rolled_over (self m))|].
  apply (respects_change_bucket_with IH (set_self (rolled_over (self m)) m)).
Qed.

Lemma respects_reset_buckets :
  respects R (_reset_buckets float_fails human_readable_fails).
Proof. apply respects_reset_buckets_at. Qed.

Lemma respects_get_next_bucket :
  respects R (_get_next_bucket float_fails human_readable_fails).
Proof. apply respects_get_next_bucket_with, respects_reset_buckets. Qed.

Lemma respects_change_bucket :
  respects R (change_bucket float_fails human_readable_fails).
Proof. apply respects_change_bucket_with, respects_reset_buckets. Qed.

Lemma respects_move_to_exhausted :
  respects R (move_to_exhausted float_fails human_readable_fails).
Proof.
  intros m. rewrite move_to_exhausted_eq.
  destruct (current_bucket (self m)); [|apply R_refl].
  destruct (nth_error (buckets (self m)) n) as [b|]; [|apply R_refl].
  rewrite log_state_frame. apply R_moved.
Qed.

#[local] Hint Resolve respects_yield_random_image respects_bucket_name_to_id
  respects_reset_buckets respects_get_next_bucket respects_change_bucket
  respects_move_to_exhausted : respects.

Lemma respects_handle_bucket_with_insufficient_images (b : string) :
  respects R
    (_handle_bucket_with_insufficient_images float_fails human_readable_fails
       b).
Proof. unfold _handle_bucket_with_insufficient_images. respects_auto. Qed.

Lemma respects_reset_if_not_enough_unseen_images :
  respects R
    (_reset_if_not_enough_unseen_images float_fails human_readable_fails).
Proof. unfold _reset_if_not_enough_unseen_images. respects_auto. Qed.

Lemma respects_yield_random_image_if_not_training (training : bool) :
  respects R (_yield_random_image_if_not_training training).
Proof. unfold _yield_random_image_if_not_training. respects_auto. Qed.

Lemma respects_process_single_image (p b : string) :
  respects R (_process_single_image data_backend str_round2 p b).
Proof.
  unfold _process_single_image.
  repeat first
    [ respects_step
    | apply respects_update; intros ?; apply R_bucket_manager ].
Qed.

Lemma respects_validate (training : bool) (samples : list string)
  (b : string) :
  respects R
    (_validate_and_yield_images_from_samples data_backend str_round2 training
       samples b).
Proof.
  induction samples as [|p rest IH];
    cbn [_validate_and_yield_images_from_samples]; [apply respects_ret|].
  apply respects_bind; [apply respects_process_single_image|intros o].
  apply respects_bind;
    [|intros kept; apply respects_bind;
      [exact IH|intros ?; apply respects_ret]].
  repeat first
    [ respects_step
    | apply respects_update; intros ?; apply R_seen_images ].
Qed.

#[local] Hint Resolve respects_validate
  respects_yield_random_image_if_not_training
  : respects.

Lemma respects_draw_batches (fuel : nat) (training : bool) (b : string)
  (available acc : list string) (all_exh : bool) :
  respects R
    (draw_batches data_backend str_round2 float_fails human_readable_fails fuel
       training b available acc all_exh).
Proof.
  revert available acc all_exh.
  induction fuel as [|f IH]; intros available acc all_exh;
    cbn [draw_batches]; [apply respects_out_of_fuel|].
  repeat first [ apply IH | respects_step ].
Qed.

Lemma respects_exhaustion_step (id0 : nat) (view : list string) (idx : nat)
  (available : list string) :
  respects R
    (exhaustion_step float_fails human_readable_fails id0 view idx available).
Proof. unfold exhaustion_step. respects_auto. Qed.

#[local] Hint Resolve respects_draw_batches respects_exhaustion_step : respects.

Lemma respects_for_each_bucket (fuel : nat) (training : bool) (id0 : nat)
  (view : list string) (idx : nat) (acc : list string) (all_exh : bool) :
  respects R
    (for_each_bucket data_backend str_round2 float_fails human_readable_fails
       fuel training id0 view idx acc all_exh).
Proof.
  revert view idx acc all_exh.
  induction fuel as [|f IH]; intros view idx acc all_exh;
    cbn [for_each_bucket]; [apply respects_out_of_fuel|].
  repeat first [ apply IH | respects_step ].
Qed.

#[local] Hint Resolve respects_for_each_bucket : respects.

Lemma respects_training_pass (fuel : nat) (training : bool)
  (acc : list string) :
  respects R
    (training_pass data_backend str_round2 float_fails human_readable_fails fuel
       training acc).
Proof. unfold training_pass. respects_auto. Qed.

#[local] Hint Resolve respects_training_pass : respects.

Lemma respects_iter_pass (fuel : nat) (training : bool) (acc : list string) :
  respects R
    (iter_pass data_backend str_round2 float_fails human_readable_fails fuel
       training acc).
Proof. unfold iter_pass. respects_auto. Qed.

Lemma respects_iter_passes (fuel : nat) (flags : list bool)
  (acc : list string) :
  respects R
    (iter_passes data_backend str_round2 float_fails human_readable_fails fuel
       flags acc).
Proof.
  revert acc. induction flags as [|t later IH]; intros acc;
    cbn [iter_passes]; [apply respects_ret|].
  apply respects_bind; [apply respects_iter_pass|intros a; apply IH].
Qed.

End Preservation.

(** *** Lists, dicts and random draws *)

Lemma mem_In (x : string) (l : list string) : Py.mem x l = true <-> In x l.
Proof using Type.
  induction l as [|y t IH]; cbn [Py.mem In];
    [split; [discriminate|intros []]|].
  rewrite orb_true_iff, IH, String.eqb_eq.
  split; (intros [H|H]; [left; symmetry; exact H|right; exact H]).
Qed.

Lemma index_In (x : string) (l : list string) :
  In x l -> exists i, Py.index x l = Some i /\ nth_error l i = Some x.
Proof using Type.
  induction l as [|y t IH]; cbn [Py.index In]; [intros []|]. intros H.
  destruct (String.eqb_spec y x) as [->|Hne];
    [exists O; split; reflexivity|].
  destruct H as [H|H]; [exfalso; exact (Hne H)|].
  destruct (IH H) as (i & -> & Hn). exists (S i). split; [reflexivity|].
  exact Hn.
Qed.

Lemma remove_In (x b : string) (l : list string) :
  In x (Py.remove b l) -> In x l.
Proof using Type.
  induction l as [|y t IH]; cbn [Py.remove In]; [intros []|].
  destruct (String.eqb y b); cbn [In].
  - intros H. right. exact H.
  - intros [H|H]; [left; exact H|right; exact (IH H)].
Qed.

Lemma remove_NoDup (b : string) (l : list string) :
  NoDup l -> NoDup (Py.remove b l) /\ ~ In b (Py.remove b l).
Proof using Type.
  induction l as [|y t IH]; cbn [Py.remove]; intros H;
    [split; [constructor|intros []]|].
  inversion H as [|? ? Hy Ht]; subst.
  destruct (String.eqb_spec y b) as [->|Hne]; [split; assumption|].
  destruct (IH Ht) as [H1 H2]. split.
  - constructor; [|exact H1]. intros Hin. apply Hy. eapply remove_In, Hin.
  - cbn [In]. intros [E|Hin]; [exact (Hne E)|exact (H2 Hin)].
Qed.

Lemma filter_not_mem_nil (l : list string) :
  filter (fun b => negb (Py.mem b [])) l = l.
Proof.
  induction l as [|y t IH]; [reflexivity|].
  cbn [filter Py.mem negb]. f_equal. exact IH.
Qed.

Lemma keys_nil {V : Type} (d : Py.dict V) : Py.keys d = [] -> d = [].
Proof. destruct d; [reflexivity|discriminate]. Qed.

Lemma choice_cons {A : Type} (a : A) (l : list A) (m : @Machine BM) :
  exists x rs,
    In x (a :: l) /\ choice (a :: l) m = (Ret x, set_random_state rs m).
Proof.
  unfold choice. destruct (next_random (random_state m)) as [r rs].
  exists (nth (r mod List.length (a :: l)) (a :: l) a), rs.
  split; [|reflexivity].
  apply nth_In. apply Nat.mod_upper_bound. discriminate.
Qed.

(** *** What a rotation and a rollover do *)

(** With a bucket left outside the exhausted list, [change_bucket] makes one
    random draw among those and points [current_bucket] at it. *)
Lemma change_bucket_with_available (reset : M unit) (m : @Machine BM) :
  filter (fun b => negb (Py.mem b (exhausted_buckets (self m))))
         (buckets (self m)) <> [] ->
  exists i b rs,
    nth_error (buckets (self m)) i = Some b
    /\ ~ In b (exhausted_buckets (self m))
    /\ change_bucket_with reset m
       = (Ret tt,
          {| self := with_current_bucket (Some i) (self m);
             random_state := rs; yielded := yielded m |}).
Proof using Type.
  intros Hne. unfold change_bucket_with, get_next_bucket_with.
  unfold bind at 1. unfold bind at 1. unfold get_self at 1.
  destruct (filter _ _) as [|a l] eqn:Hf; [congruence|].
  destruct (choice_cons a l m) as (x & rs & Hin & ->).
  rewrite <- Hf in Hin. apply filter_In in Hin. destruct Hin as [Hin Hx].
  destruct (index_In _ _ Hin) as (i & Hi & Hn).
  exists i, x, rs. split; [exact Hn|]. split.
  - rewrite <- mem_In. destruct (Py.mem x _); [discriminate|congruence].
  - unfold bind, _bucket_name_to_id, get_self, lift. cbn.
    unfold bind. cbn. rewrite Hi. reflexivity.
Qed.

(** The four ways a rollover ends.  The last but one is the rollover that
    finds no bucket to reload: the nested rollover raises after the
    assignments of the outer one. *)
Lemma reset_buckets_cases (m : @Machine BM) :
  let run := _reset_buckets float_fails human_readable_fails m in
  (nothing_seen_or_unseen (self m) = true /\ run = (Exc NoImagesFound, m))
  \/ (nothing_seen_or_unseen (self m) = false
      /\ exists e, fst (log_state float_fails human_readable_fails m) = Exc e
                   /\ run = (Exc e, m))
  \/ (nothing_seen_or_unseen (self m) = false
      /\ load_buckets (self m) = []
      /\ run = (Exc NoImagesFound, set_self (rolled_over (self m)) m))
  \/ (nothing_seen_or_unseen (self m) = false
      /\ exists i b rs,
           nth_error (load_buckets (self m)) i = Some b
           /\ run = (Ret tt,
                     {| self := with_current_bucket (Some i)
                                  (rolled_over (self m));
                        random_state := rs; yielded := yielded m |})).
Proof.
  cbv zeta. unfold _reset_buckets. rewrite reset_buckets_at_S.
  destruct (nothing_seen_or_unseen (self m)) eqn:Hempty; [left; auto|].
  right.
  destruct (fst (log_state float_fails human_readable_fails m))
    as [[]|e|] eqn:Hlog.
  - right.
    destruct (load_buckets (self m)) as [|k ks] eqn:Hkeys.
    + left. split; [reflexivity|]. split; [reflexivity|].
      unfold change_bucket_with, get_next_bucket_with.
      unfold bind at 1. unfold bind at 1. unfold get_self at 1.
      cbn [self set_self rolled_over buckets exhausted_buckets
           with_seen_images with_new_buckets with_exhausted_buckets
           with_current_epoch].
      rewrite Hkeys. cbn [filter]. unfold bind at 1.
      rewrite reset_buckets_at_S.
      unfold nothing_seen_or_unseen, load_buckets in *.
      apply keys_nil in Hkeys.
      cbn [self set_self rolled_over seen_images bucket_manager
           with_seen_images with_new_buckets with_exhausted_buckets
           with_current_epoch].
      rewrite Hkeys. reflexivity.
    + right. split; [reflexivity|].
      destruct (@change_bucket_with_available
                  (reset_buckets_at float_fails human_readable_fails 1)
                  (set_self (rolled_over (self m)) m))
        as (i & b & rs & Hn & _ & Hrun).
      * cbn. rewrite filter_not_mem_nil, Hkeys. discriminate.
      * exists i, b, rs. split; [|exact Hrun].
        cbn in Hn. rewrite <- Hkeys. exact Hn.
  - left. split; [reflexivity|]. exists e. auto.
  - exfalso. rewrite log_state_frame in Hlog. revert Hlog.
    unfold log_state, bind, get_self, raise, ret. cbn.
    destruct (log_active _ _ _ _ _); [discriminate|].
    destruct (log_exhausted _ _ _ _); discriminate.
Qed.

(** *** The calls a constructed sampler takes *)

Lemma load_states_eq (seen_file : Py.dict string)
  (previous_state : SavedState (Py.dict (list string))) (m : @Machine BM) :
  load_states float_fails human_readable_fails seen_file previous_state m
  = log_state float_fails human_readable_fails
      (set_self (loaded seen_file previous_state (self m)) m).
Proof.
  unfold load_states, loaded.
  destruct (saved_seen_images previous_state); reflexivity.
Qed.

Lemma load_states_self (seen_file : Py.dict string)
  (previous_state : SavedState (Py.dict (list string))) (m : @Machine BM) :
  self (snd (load_states float_fails human_readable_fails seen_file
               previous_state m))
  = loaded seen_file previous_state (self m).
Proof.
  rewrite load_states_eq, log_state_frame. reflexivity.
Qed.

(** [R] holds across every sequence of calls, given that it holds across
    the assignments the methods make; across [load_states] it is asked only
    for the loads the sequence makes. *)
Lemma respects_perform (R : @Sampler BM -> @Sampler BM -> Prop) :
  (forall s, R s s) ->
  (forall s1 s2 s3, R s1 s2 -> R s2 s3 -> R s1 s3) ->
  (forall s bm, R s (with_bucket_manager bm s)) ->
  (forall s d, R s (with_seen_images d s)) ->
  (forall s i, R s (with_current_bucket i s)) ->
  (forall s, R s (rolled_over s)) ->
  (forall s bucket, R s (moved bucket s)) ->
  forall ops,
    (forall seen_file previous_state,
        In (Load_states seen_file previous_state) ops ->
        forall s, R s (loaded seen_file previous_state s)) ->
    forall m,
      R (self m)
        (self (perform_all data_backend str_round2 float_fails
                 human_readable_fails ops m)).
Proof.
  intros Hrefl Htrans Hbm Hseen Hcur Hroll Hmov ops.
  induction ops as [|o ops IH]; intros Hload m; [apply Hrefl|].
  cbn [perform_all fold_left].
  eapply Htrans;
    [|apply IH; intros f st Hin; apply Hload; right; exact Hin].
  destruct o; cbn [perform].
  - rewrite load_states_self. apply Hload. left. reflexivity.
  - apply Hrefl.
  - apply respects_log_state; auto.
  - apply respects_get_next_bucket; auto.
  - apply respects_change_bucket; auto.
  - apply respects_reset_buckets; auto.
  - apply respects_move_to_exhausted; auto.
  - apply respects_handle_bucket_with_insufficient_images; auto.
  - apply respects_reset_if_not_enough_unseen_images; auto.
  - apply respects_yield_random_image_if_not_training; auto.
  - apply respects_process_single_image; auto.
  - apply respects_validate; auto.
  - apply respects_iter_passes; auto.
Qed.

Lemma disjoint_lists_rolled_over (s : @Sampler BM) :
  disjoint_lists (rolled_over s).
Proof using Type.
  split; cbn; [apply indices_keys_unique|intros b _ []].
Qed.

Lemma disjoint_lists_moved (s : @Sampler BM) (bucket : string) :
  disjoint_lists s -> disjoint_lists (moved bucket s).
Proof using Type.
  intros [Hnd Hdis]. destruct (remove_NoDup bucket Hnd) as [H1 H2].
  split; cbn; [exact H1|].
  intros b Hb Hin. apply in_app_or in Hin. destruct Hin as [Hin|[<-|[]]].
  - apply (Hdis b); [eapply remove_In, Hb|exact Hin].
  - exact (H2 Hb).
Qed.

(** Apart from [load_states], no call makes the two lists of bucket keys
    meet once they are apart. *)
Lemma disjoint_lists_kept (ops : list operation) (m : @Machine BM) :
  (forall seen_file previous_state,
      ~ In (Load_states seen_file previous_state) ops) ->
  disjoint_lists (self m) ->
  disjoint_lists
    (self (perform_all data_backend str_round2 float_fails
             human_readable_fails ops m)).
Proof.
  intros Hops.
  apply (@respects_perform (fun s s' => disjoint_lists s -> disjoint_lists s'));
    auto.
  - intros s _. apply disjoint_lists_rolled_over.
  - intros s b. apply disjoint_lists_moved.
  - intros f st Hin. destruct (Hops f st Hin).
Qed.

(** *** Epoch rollover *)

Lemma nothing_seen_or_unseen_spec (s : @Sampler BM) :
  nothing_seen_or_unseen s = true
  <-> seen_images s = [] /\ _get_unseen_images s None = Ret [].
Proof.
  unfold nothing_seen_or_unseen. cbn [_get_unseen_images].
  rewrite andb_true_iff, !Z.eqb_eq. unfold Py.len.
  split.
  - intros [H1 H2]. split.
    + destruct (seen_images s); [reflexivity|discriminate].
    + destruct (flat_map _ _); [reflexivity|discriminate].
  - intros [-> H]. injection H as ->. split; reflexivity.
Qed.

(** C7, as the code has it: every epoch rollover that completes without
    error leaves [seen_images] and [exhausted_buckets] empty, [buckets]
    equal to the keys of the bucket manager's live dict, and
    [current_epoch] one higher; over any sequence of calls on a constructed
    sampler that does not call [load_states] again [current_epoch] never
    decreases; and [load_states], however it ends, leaves [current_epoch]
    at the saved epoch, or at 1 when none was saved. *)
Theorem rollover_resets_and_epoch_never_decreases :
  (forall m m' : @Machine BM,
      _reset_buckets float_fails human_readable_fails m = (Ret tt, m') ->
      seen_images (self m') = []
      /\ exhausted_buckets (self m') = []
      /\ buckets (self m')
         = Py.keys (aspect_ratio_bucket_indices (bucket_manager (self m')))
      /\ bucket_manager (self m') = bucket_manager (self m)
      /\ current_epoch (self m') = current_epoch (self m) + 1)
  /\ (forall (ops : list operation) (m : @Machine BM),
         (forall seen_file previous_state,
             ~ In (Load_states seen_file previous_state) ops) ->
         current_epoch (self m)
         <= current_epoch
              (self (perform_all data_backend str_round2 float_fails
                       human_readable_fails ops m)))
  /\ (forall (seen_file : Py.dict string)
             (previous_state : SavedState (Py.dict (list string)))
             (m : @Machine BM),
         current_epoch
           (self (perform data_backend str_round2 float_fails
                    human_readable_fails m
                    (Load_states seen_file previous_state)))
         = match saved_current_epoch previous_state with
           | Some epoch => epoch
           | None => 1
           end).
Proof.
  split; [|split].
  - intros m m' Hrun.
    destruct (reset_buckets_cases m)
      as [[_ H]|[(_ & e & _ & H)|[(_ & _ & H)|(_ & i & b & rs & _ & H)]]];
      cbv zeta in H; rewrite Hrun in H; try discriminate.
    injection H as ->. cbn. repeat split; reflexivity.
  - intros ops m Hops. revert m.
    apply (@respects_perform
             (fun s s' => current_epoch s <= current_epoch s'));
      try (intros; cbn; lia).
    intros f st Hin. destruct (Hops f st Hin).
  - intros seen_file previous_state m. cbn [perform].
    rewrite load_states_self. unfold loaded.
    destruct (saved_seen_images previous_state); reflexivity.
Qed.

Lemma log_state_not_fatal (m : @Machine BM) :
  fst (log_state float_fails human_readable_fails m) <> Exc NoImagesFound.
Proof.
  unfold log_state, bind, get_self, raise, ret. cbn.
  assert (Ha : forall r ix bs,
             log_active float_fails human_readable_fails r ix bs
             <> Some NoImagesFound).
  { intros r ix bs. induction bs as [|b t IH]; cbn; [discriminate|].
    destruct (float_fails b); [discriminate|].
    destruct (Py.get b ix); [|discriminate].
    destruct (human_readable_fails b r); [discriminate|exact IH]. }
  assert (Hx : forall r bs,
             log_exhausted float_fails human_readable_fails r bs
             <> Some NoImagesFound).
  { intros r bs. induction bs as [|b t IH]; cbn; [discriminate|].
    destruct (float_fails b); [discriminate|].
    destruct (human_readable_fails b r); [discriminate|exact IH]. }
  destruct (log_active _ _ _ _ _) as [e|] eqn:E1.
  - cbn. intros H. injection H as ->. exact (Ha _ _ _ E1).
  - destruct (log_exhausted _ _ _ _) as [e|] eqn:E2; cbn; [|discriminate].
    intros H. injection H as ->. exact (Hx _ _ E2).
Qed.

Lemma bind_ret {A B : Type} (c : M A) (k : A -> M B) (m m1 : @Machine BM)
  (a : A) :
  c m = (Ret a, m1) -> bind c k m = k a m1.
Proof. intros H. unfold bind. rewrite H. reflexivity. Qed.

Lemma bind_exc {A B : Type} (c : M A) (k : A -> M B) (m m1 : @Machine BM)
  (e : exn) :
  c m = (Exc e, m1) -> bind c k m = (Exc e, m1).
Proof. intros H. unfold bind. rewrite H. reflexivity. Qed.

Lemma log_state_ok (m : @Machine BM) :
  log_active float_fails human_readable_fails (resolution (self m))
    (aspect_ratio_bucket_indices (bucket_manager (self m)))
    (buckets (self m)) = None ->
  log_exhausted float_fails human_readable_fails (resolution (self m))
    (exhausted_buckets (self m)) = None ->
  log_state float_fails human_readable_fails m = (Ret tt, m).
Proof.
  intros Ha Hx. unfold log_state, bind, get_self. rewrite Ha, Hx. reflexivity.
Qed.

(** With every bucket exhausted, [change_bucket] starts with the rollover,
    and ends with it when the rollover raises. *)
Lemma change_bucket_with_none (reset : M unit) (m m' : @Machine BM)
  (e : exn) :
  filter (fun b => negb (Py.mem b (exhausted_buckets (self m))))
         (buckets (self m)) = [] ->
  reset m = (Exc e, m') ->
  change_bucket_with reset m = (Exc e, m').
Proof.
  intros Hf Hr. unfold change_bucket_with. apply bind_exc.
  unfold get_next_bucket_with. unfold bind at 1. unfold get_self at 1.
  rewrite Hf. apply bind_exc. exact Hr.
Qed.

(** C6, as the code has it: a rollover that finds [seen_images] and the
    unseen images of all buckets both empty raises the fatal error and
    leaves the sampler as it was; when the bucket manager holds at least one
    bucket key the fatal error has no other cause; the error is not caught
    on the way up, so building a sampler over an empty bucket manager with
    nothing seen, and a pass of the iterator over such a sampler, end in it
    instead of looping. *)
Theorem rollover_fatal_error :
  (forall m : @Machine BM,
      seen_images (self m) = [] ->
      _get_unseen_images (self m) None = Ret [] ->
      _reset_buckets float_fails human_readable_fails m
      = (Exc NoImagesFound, m))
  /\ (forall m m' : @Machine BM,
         load_buckets (self m) <> [] ->
         _reset_buckets float_fails human_readable_fails m
         = (Exc NoImagesFound, m') ->
         seen_images (self m) = []
         /\ _get_unseen_images (self m) None = Ret [] /\ m' = m)
  /\ (forall (bm : BM) (batch : Z) (delete_unwanted : bool)
             (minimum : option Z) (res_px : Z)
             (previous_state : SavedState (Py.dict (list string)))
             (rs : list nat),
         aspect_ratio_bucket_indices bm = [] ->
         saved_exhausted_buckets previous_state = None ->
         saved_seen_images previous_state = None ->
         fst (__init__ float_fails human_readable_fails bm batch
                delete_unwanted minimum res_px [] previous_state rs)
         = Exc NoImagesFound)
  /\ (forall (fuel : nat) (acc : list string) (m : @Machine BM),
         aspect_ratio_bucket_indices (bucket_manager (self m)) = [] ->
         seen_images (self m) = [] ->
         buckets (self m) = [] ->
         iter_pass data_backend str_round2 float_fails human_readable_fails
           (S fuel) true acc m
         = (Exc NoImagesFound, m)).
Proof.
  assert (Hfatal :
    forall m : @Machine BM,
      seen_images (self m) = [] ->
      _get_unseen_images (self m) None = Ret [] ->
      _reset_buckets float_fails human_readable_fails m
      = (Exc NoImagesFound, m)).
  { intros m Hs Hu.
    assert (He : nothing_seen_or_unseen (self m) = true)
      by (apply nothing_seen_or_unseen_spec; auto).
    destruct (reset_buckets_cases m)
      as [[_ H]|[(Hf & _)|[(Hf & _)|(Hf & _)]]]; [exact H|congruence..]. }
  split; [exact Hfatal|]. split; [|split].
  - intros m m' Hkeys Hrun.
    destruct (reset_buckets_cases m)
      as [[He H]|[(_ & e & Hlog & H)|[(_ & Hk & _)|(_ & i & b & rs & _ & H)]]];
      try (cbv zeta in H; rewrite Hrun in H).
    + injection H as ->. apply nothing_seen_or_unseen_spec in He. tauto.
    + injection H as <- ->.
      exfalso. exact (log_state_not_fatal m Hlog).
    + congruence.
    + discriminate.
  - intros bm batch delete_unwanted minimum res_px previous_state rs
      Hix Hex Hseen.
    unfold __init__.
    set (m0 := {| self := blank bm batch delete_unwanted minimum res_px;
                  random_state := rs; yielded := [] |}).
    set (m1 := set_self (loaded [] previous_state (self m0)) m0).
    assert (Hbuckets : buckets (self m1) = []).
    { unfold m1, loaded. rewrite Hseen. cbn. unfold load_buckets. cbn.
      rewrite Hix. reflexivity. }
    assert (Hexh : exhausted_buckets (self m1) = []).
    { unfold m1, loaded. rewrite Hseen, Hex. reflexivity. }
    assert (Hload : load_states float_fails human_readable_fails []
                      previous_state m0 = (Ret tt, m1)).
    { rewrite load_states_eq. apply log_state_ok.
      - fold m1. rewrite Hbuckets. reflexivity.
      - fold m1. rewrite Hexh. reflexivity. }
    erewrite bind_ret; [|exact Hload].
    unfold change_bucket.
    erewrite change_bucket_with_none; [reflexivity| |apply Hfatal].
    + rewrite Hbuckets. reflexivity.
    + unfold m1, loaded. rewrite Hseen. reflexivity.
    + unfold m1, loaded. rewrite Hseen. cbn. rewrite Hix. reflexivity.
  - intros fuel acc m Hix Hs Hb.
    unfold iter_pass, _yield_random_image_if_not_training.
    cbn [negb]. erewrite bind_ret; [|reflexivity].
    unfold training_pass.
    erewrite bind_ret; [|reflexivity].
    assert (Hfor :
      for_each_bucket data_backend str_round2 float_fails
        human_readable_fails (S fuel) true (buckets_id (self m))
        (buckets (self m)) 0 acc true m = (Ret (acc, true), m)).
    { cbn [for_each_bucket].
      erewrite bind_ret; [|reflexivity].
      unfold iterated_list. rewrite Nat.eqb_refl, Hb. reflexivity. }
    erewrite bind_ret; [|exact Hfor].
    apply bind_exc. apply Hfatal; [exact Hs|].
    cbn. rewrite Hix. reflexivity.
Qed.

(** *** The two lists of bucket keys *)

(** *** Validation of a drawn image *)

(** [_process_single_image] as the machine it returns. *)
Lemma process_single_image_eq (image_path bucket : string) (m : @Machine BM) :
  _process_single_image data_backend str_round2 image_path bucket m
  = let s := self m in
    let bm := bucket_manager s in
    if negb (exists_ data_backend image_path) then
      (Ret None,
       set_self (with_bucket_manager (remove_image bm image_path bucket) s) m)
    else
      match read_image data_backend image_path with
      | None => (Ret None, m)
      | Some image =>
          match minimum_image_size s with
          | None => (Ret None, m)
          | Some minimum =>
              if (width image <? minimum) || (height image <? minimum) then
                (Ret None,
                 set_self (with_bucket_manager
                             (handle_small_image bm image_path bucket
                                (delete_unwanted_images s)) s) m)
              else
                match exif_transposed image with
                | None => (Ret None, m)
                | Some (w, h) =>
                    if h =? 0 then (Ret None, m)
                    else if negb (String.eqb (str_round2 w h) bucket) then
                      (Ret None,
                       set_self (with_bucket_manager
                                   (handle_incorrect_bucket bm image_path
                                      bucket (str_round2 w h)) s) m)
                    else (Ret (Some image_path), m)
                end
          end
      end.
Proof.
  unfold _process_single_image. cbv zeta.
  destruct (negb _); [reflexivity|].
  destruct (read_image _ _) as [image|]; [|reflexivity].
  unfold bind at 1. unfold get_self at 1.
  destruct (minimum_image_size _) as [minimum|]; [|reflexivity].
  destruct (_ || _); [reflexivity|].
  destruct (exif_transposed _) as [[w h]|]; [|reflexivity].
  destruct (h =? 0); [reflexivity|].
  destruct (negb _); reflexivity.
Qed.


Lemma validate_without_minimum (training : bool) (samples : list string)
  (bucket : string) (m : @Machine BM) :
  minimum_image_size (self m) = None ->
  exists m',
    _validate_and_yield_images_from_samples data_backend str_round2 training
      samples bucket m
    = (Ret [], m')
    /\ seen_images (self m') = seen_images (self m)
    /\ minimum_image_size (self m') = None.
Proof.
  revert m. induction samples as [|p rest IH]; intros m Hmin;
    cbn [_validate_and_yield_images_from_samples].
  - exists m. auto.
  - unfold bind at 1. rewrite process_single_image_eq. cbv zeta.
    rewrite Hmin.
    match goal with
    | |- context [if ?c then (Ret None, ?m1) else ?e] =>
        assert (Hrun : exists m2,
                   (if c then (Ret (@None string), m1) else e)
                   = (Ret None, m2)
                   /\ seen_images (self m2) = seen_images (self m)
                   /\ minimum_image_size (self m2) = None)
    end.
    { destruct (negb _).
      - eexists; split; [reflexivity|]. split; [reflexivity|exact Hmin].
      - destruct (read_image _ _); eexists; split; try reflexivity; auto. }
    destruct Hrun as (m2 & -> & Hseen & Hmin2).
    destruct (IH m2 Hmin2) as (m' & Hrest & Hseen' & Hmin').
    exists m'. split; [|split; [congruence|exact Hmin']].
    unfold bind at 1. cbn [ret]. unfold bind at 1. rewrite Hrest.
    reflexivity.
Qed.

(** C10: with [minimum_image_size] left at [None], an image that exists and
    decodes is discarded through the bare [except:], without a call on the
    bucket manager, and no sample is ever returned as valid or recorded as
    seen. *)
Theorem no_minimum_size_rejects_every_image :
  forall m : @Machine BM,
    minimum_image_size (self m) = None ->
    (forall (image_path bucket : string) (image : PILImage),
        resource_exists data_backend image_path ->
        decodes_to data_backend image_path image ->
        _process_single_image data_backend str_round2 image_path bucket m
        = (Ret None, m))
    /\ (forall image_path bucket,
           fst (_process_single_image data_backend str_round2 image_path
                  bucket m)
           = Ret None)
    /\ (forall (training : bool) (samples : list string) (bucket : string),
           exists m',
             _validate_and_yield_images_from_samples data_backend str_round2
               training samples bucket m
             = (Ret [], m')
             /\ seen_images (self m') = seen_images (self m)).
Proof.
  intros m Hmin. split; [|split].
  - intros image_path bucket image Hex Hread.
    rewrite process_single_image_eq. cbv zeta.
    unfold resource_exists in Hex. unfold decodes_to in Hread.
    rewrite Hex, Hread, Hmin. reflexivity.
  - intros image_path bucket. rewrite process_single_image_eq. cbv zeta.
    rewrite Hmin. destruct (negb _); [reflexivity|].
    destruct (read_image _ _); reflexivity.
  - intros training samples bucket.
    destruct (validate_without_minimum training samples bucket m Hmin)
      as (m' & Hrun & Hseen & _).
    exists m'. auto.
Qed.

(** *** The not-training branch *)


(** *** Drawing a batch *)

Lemma remove_nth_perm {A : Type} (i : nat) (l : list A) (d : A) :
  (i < List.length l)%nat -> Permutation (nth i l d :: remove_nth i l) l.
Proof.
  revert i. induction l as [|a l IH]; intros i Hi; [inversion Hi|].
  destruct i as [|i]; [apply Permutation_refl|].
  change (remove_nth (S i) (a :: l)) with (a :: remove_nth i l).
  cbn [nth]. eapply perm_trans; [apply perm_swap|].
  apply perm_skip. apply IH. cbn in Hi. lia.
Qed.

Lemma remove_nth_length {A : Type} (i : nat) (l : list A) :
  (i < List.length l)%nat ->
  List.length (remove_nth i l) = pred (List.length l).
Proof.
  intros Hi. unfold remove_nth. rewrite length_app, firstn_length_le by lia.
  rewrite length_skipn. lia.
Qed.

(** [pick_distinct] takes [k] elements out of the pool, each position at most
    once: what it returns and what it leaves make up the pool. *)
Lemma pick_distinct_spec {A : Type} (k : nat) (pool : list A)
  (rs : list nat) :
  (k <= List.length pool)%nat ->
  List.length (fst (pick_distinct k pool rs)) = k
  /\ exists rest, Permutation (fst (pick_distinct k pool rs) ++ rest) pool.
Proof.
  revert pool rs. induction k as [|k IH]; intros pool rs Hk;
    cbn [pick_distinct].
  - split; [reflexivity|]. exists pool. apply Permutation_refl.
  - destruct pool as [|a pool']; [inversion Hk|].
    set (pool := a :: pool') in *.
    destruct (next_random rs) as [r rs'].
    set (i := (r mod List.length pool)%nat).
    assert (Hi : (i < List.length pool)%nat)
      by (apply Nat.mod_upper_bound; discriminate).
    specialize (IH (remove_nth i pool) rs').
    destruct (pick_distinct k (remove_nth i pool) rs') as [xs rs''].
    destruct IH as [Hlen [rest Hperm]].
    { rewrite remove_nth_length by exact Hi. cbn in Hk |- *. lia. }
    cbn [fst] in *. split; [cbn; rewrite Hlen; reflexivity|].
    exists rest. cbn [app].
    eapply perm_trans; [apply perm_skip, Hperm|].
    apply remove_nth_perm, Hi.
Qed.

End Properties.

(** * The claims on the worked runs *)

Import Demo Runs.

(** C5, on the code: the unseen images of a bucket are its images that the
    bucket manager does not report as seen; [seen_images] is not read.  The
    resumed sampler has ["a"] among the keys of [seen_images] and still
    lists it as unseen.  The draw itself is as claimed: [random.sample]
    returns [batch_size] elements of the list, no position twice. *)
Theorem unseen_images_do_not_read_seen_images :
  (forall (BM : Type) (ops : BucketManager BM) (s : @Sampler BM)
          (d : Py.dict string) (bucket : option string),
      _get_unseen_images (with_seen_images d s) bucket
      = _get_unseen_images s bucket)
  /\ (Py.get "a" (seen_images (self (snd resumed))) = Some "1.0"
      /\ _get_unseen_images (self (snd resumed)) (Some "1.0")
         = Ret ["a"; "b"; "c"; "d"; "e"])
  /\ (forall (BM : Type) (ops : BucketManager BM) (population : list string)
             (k : Z) (m : @Machine BM),
         0 <= k <= Py.len population ->
         exists xs rest m',
           sample population k m = (Ret xs, m')
           /\ Py.len xs = k
           /\ Permutation (xs ++ rest) population).
Proof.
  split; [|split].
  - intros BM ops s d bucket. reflexivity.
  - split; reflexivity.
  - intros BM ops population k m [Hk0 Hk]. unfold sample.
    assert (E : (k <? 0) || (Py.len population <? k) = false)
      by (rewrite orb_false_iff, !Z.ltb_ge; auto).
    rewrite E.
    assert (Hn : (Z.to_nat k <= List.length population)%nat)
      by (unfold Py.len in Hk; lia).
    destruct (@pick_distinct_spec _ (Z.to_nat k) population (random_state m)
                Hn)
      as [Hlen [rest Hperm]].
    destruct (pick_distinct _ _ _) as [xs rs]. cbn [fst] in *.
    exists xs, rest, (set_random_state rs m).
    split; [reflexivity|]. split; [unfold Py.len; lia|exact Hperm].
Qed.

(** C1, on the code: a sampler runs one pass, yielding ["a"], ["b"], ["f"]
    and ["g"] and moving bucket ["1.0"] to [exhausted_buckets]; its state is
    saved, and a fresh sampler is built from it.  The first pass of the
    resumed sampler yields ["a"] and ["b"] again, which are keys of the
    loaded [seen_images] and images of the loaded exhausted bucket ["1.0"],
    and ["f"] and ["g"] again, with [current_epoch] still at the loaded
    value. *)
Theorem resume_reemits_seen_and_exhausted :
  yielded (snd first_run) = [BatchRun ["a"; "b"]; BatchRun ["f"; "g"]]
  /\ fst resumed = Ret tt
  /\ seen_images (self (snd resumed))
     = [("a", "1.0"); ("b", "1.0"); ("f", "3.0"); ("g", "3.0")]
  /\ exhausted_buckets (self (snd resumed)) = ["1.0"]
  /\ Store.items three_buckets "1.0" = ["a"; "b"; "c"; "d"; "e"]
  /\ fst resumed_pass = Ret []
  /\ yielded (snd resumed_pass) = [BatchRun ["a"; "b"]; BatchRun ["f"; "g"]]
  /\ current_epoch (self (snd resumed_pass))
     = current_epoch (self (snd resumed)).
Proof.
  assert (Hfirst : yielded (snd first_run)
                   = [BatchRun ["a"; "b"]; BatchRun ["f"; "g"]])
    by (vm_compute; reflexivity).
  assert (Hpass : yielded (snd resumed_pass)
                  = [BatchRun ["a"; "b"]; BatchRun ["f"; "g"]])
    by (vm_compute; reflexivity).
  split; [exact Hfirst|].
  repeat split; try exact Hpass; vm_compute; reflexivity.
Qed.

(** C2, on the code: with [batch_size] 2, the image left in the accumulator
    by bucket ["1.0"] (whose other sample is a missing file) is yielded in
    one run with the two images drawn from bucket ["2.0"]: a run of three
    paths from two buckets. *)
Theorem batch_run_crosses_buckets :
  batch_size (self (snd stale_start)) = 2
  /\ Store.items stale "1.0" = ["a"; "b"]
  /\ Store.items stale "2.0" = ["d"; "e"]
  /\ fst stale_pass = Ret []
  /\ yielded (snd stale_pass) = [BatchRun ["b"; "d"; "e"]].
Proof.
  assert (Hpass : yielded (snd stale_pass) = [BatchRun ["b"; "d"; "e"]])
    by (vm_compute; reflexivity).
  repeat split; try exact Hpass; vm_compute; reflexivity.
Qed.

(** C3, on the code: the sampler over a full bucket ["1.0"] and an empty
    bucket ["2.0"] has [current_bucket] at ["1.0"] when the loop scans
    ["2.0"] at the last index and finds nothing unseen.  The step moves
    ["1.0"], the bucket at [current_bucket], and leaves ["2.0"], the bucket
    whose count was checked, in [buckets]; a whole pass of the iterator
    ends the same way, with ["1.0"] exhausted although only ["a"] and
    ["b"] of its five images have been seen, for a [batch_size] of 2. *)
Theorem exhaustion_moves_an_unchecked_bucket :
  let s := self (snd lopsided_start) in
  batch_size s = 2
  /\ current_bucket s = Some O
  /\ nth_error (buckets s) 0 = Some "1.0"
  /\ nth_error (buckets s) 1 = Some "2.0"
  /\ _get_unseen_images s (Some "2.0") = Ret []
  /\ _get_unseen_images s (Some "1.0") = Ret ["a"; "b"; "c"; "d"; "e"]
  /\ exhaustion_guard s 1 [] = true
  /\ exhausted_buckets (self (snd lopsided_step)) = ["1.0"]
  /\ buckets (self (snd lopsided_step)) = ["2.0"]
  /\ fst lopsided_pass = Ret []
  /\ yielded (snd lopsided_pass) = [BatchRun ["a"; "b"]]
  /\ seen_images (self (snd lopsided_pass)) = [("a", "1.0"); ("b", "1.0")]
  /\ exhausted_buckets (self (snd lopsided_pass)) = ["1.0"]
  /\ buckets (self (snd lopsided_pass)) = ["2.0"].
Proof.
  cbv zeta. repeat split; vm_compute; reflexivity.
Qed.

(** The test of line 328 reads the list of unseen images that was computed
    before the last draw.  Over two buckets of two that each list a file
    that is gone, the pass yields ["q"] and ["b"] in one run; the draw from
    ["2.0"], at the last index, has removed ["x"], so that one unseen image
    is left there for a [batch_size] of 2, and nothing is moved to
    [exhausted_buckets]. *)
Lemma exhaustion_check_reads_the_list_before_the_draw :
  fst half_gone_pass = Ret []
  /\ yielded (snd half_gone_pass) = [BatchRun ["q"; "b"]]
  /\ batch_size (self (snd half_gone_pass)) = 2
  /\ buckets (self (snd half_gone_pass)) = ["1.0"; "2.0"]
  /\ _get_unseen_images (self (snd half_gone_pass)) (Some "2.0")
     = Ret ["b"]
  /\ exhausted_buckets (self (snd half_gone_pass)) = [].
Proof.
  repeat split; vm_compute; reflexivity.
Qed.

(** C4, on the code: the first run ends with ["1.0"] in
    [exhausted_buckets] and out of [buckets], and [save_state] saves the two
    lists as they are.  [__init__], given that state, returns a sampler
    that has ["1.0"] both in [buckets] and in [exhausted_buckets]:
    [load_states] takes [exhausted_buckets] from the saved state and every
    key of the bucket manager for [buckets], and does not read the saved
    [buckets]. *)
Theorem resumed_lists_overlap :
  buckets (self (snd first_run)) = ["3.0"; "2.0"]
  /\ exhausted_buckets (self (snd first_run)) = ["1.0"]
  /\ saved_buckets snapshot = Some ["3.0"; "2.0"]
  /\ saved_exhausted_buckets snapshot = Some ["1.0"]
  /\ fst resumed = Ret tt
  /\ buckets (self (snd resumed)) = ["1.0"; "3.0"; "2.0"]
  /\ exhausted_buckets (self (snd resumed)) = ["1.0"]
  /\ In "1.0" (buckets (self (snd resumed)))
  /\ In "1.0" (exhausted_buckets (self (snd resumed))).
Proof.
  repeat (split; [vm_compute; reflexivity|]).
  split; vm_compute; auto.
Qed.

(** C6, against the claim: over a bucket manager without buckets, a sampler
    that still has an image in [seen_images] rolls over, reloads no bucket
    and raises the fatal error from the nested rollover, after
    [current_epoch] was incremented and [seen_images] emptied. *)
Lemma rollover_raises_after_assignments :
  seen_images (self remembering) = [("a", "1.0")]
  /\ current_epoch (self remembering) = 1
  /\ fst (_reset_buckets float_fails human_readable_fails remembering)
     = Exc NoImagesFound
  /\ current_epoch
       (self (snd (_reset_buckets float_fails human_readable_fails
                     remembering))) = 2
  /\ seen_images
       (self (snd (_reset_buckets float_fails human_readable_fails
                     remembering))) = [].
Proof.
  repeat split; vm_compute; reflexivity.
Qed.

Lemma rollover_fatal_error_witness :
  seen_images (self destitute) = []
  /\ _get_unseen_images (self destitute) None = Ret []
  /\ _reset_buckets float_fails human_readable_fails destitute
     = (Exc NoImagesFound, destitute).
Proof.
  split; [reflexivity|]. split; [reflexivity|].
  apply (proj1 (@rollover_fatal_error Store.t _ (backend []) str_round2
                  float_fails human_readable_fails) destitute);
    reflexivity.
Defined.

(** C7, against the claim: after two rollovers the sampler is in epoch 3;
    [load_states], called on it with a state file that holds no epoch,
    returns and leaves it in epoch 1. *)
Lemma load_states_lowers_the_epoch :
  current_epoch (self third_epoch) = 3
  /\ fst (load_states float_fails human_readable_fails [] no_saved_state
            third_epoch) = Ret tt
  /\ current_epoch
       (self (perform_all (backend lopsided_files) str_round2 float_fails
                human_readable_fails [Load_states [] no_saved_state]
                third_epoch)) = 1.
Proof.
  repeat split; vm_compute; reflexivity.
Qed.

Lemma rollover_resets_witness :
  _reset_buckets float_fails human_readable_fails (snd lopsided_start)
  = (Ret tt,
     snd (_reset_buckets float_fails human_readable_fails
            (snd lopsided_start)))
  /\ seen_images
       (self (snd (_reset_buckets float_fails human_readable_fails
                     (snd lopsided_start)))) = []
  /\ current_epoch
       (self (snd (_reset_buckets float_fails human_readable_fails
                     (snd lopsided_start))))
     = current_epoch (self (snd lopsided_start)) + 1
  /\ current_epoch (self (snd lopsided_start))
     <= current_epoch
          (self (perform_all (backend lopsided_files) str_round2 float_fails
                   human_readable_fails
                   [Iterate 20 [true] []; Reset_buckets; Change_bucket]
                   (snd lopsided_start))).
Proof.
  assert (H : _reset_buckets float_fails human_readable_fails
                (snd lopsided_start)
              = (Ret tt,
                 snd (_reset_buckets float_fails human_readable_fails
                        (snd lopsided_start))))
    by (vm_compute; reflexivity).
  split; [exact H|].
  destruct (@rollover_resets_and_epoch_never_decreases Store.t _
              (backend lopsided_files) str_round2 float_fails
              human_readable_fails)
    as (Hroll & Hkept & _).
  destruct (Hroll _ _ H) as (Hseen & _ & _ & _ & Hepoch).
  split; [exact Hseen|]. split; [exact Hepoch|].
  apply Hkept.
  intros seen_file previous_state [E|[E|[E|[]]]]; discriminate E.
Defined.


Lemma no_minimum_size_witness :
  minimum_image_size (self (snd defaulted)) = None
  /\ resource_exists (backend two_buckets_files) "a"
  /\ decodes_to (backend two_buckets_files) "a" square
  /\ _process_single_image (backend two_buckets_files) str_round2 "a" "1.0"
       (snd defaulted)
     = (Ret None, snd defaulted).
Proof.
  assert (Hmin : minimum_image_size (self (snd defaulted)) = None)
    by reflexivity.
  assert (Hex : resource_exists (backend two_buckets_files) "a")
    by reflexivity.
  assert (Hdec : decodes_to (backend two_buckets_files) "a" square)
    by reflexivity.
  split; [exact Hmin|]. split; [exact Hex|]. split; [exact Hdec|].
  exact (proj1 (@no_minimum_size_rejects_every_image Store.t _
                  (backend two_buckets_files) str_round2 (snd defaulted)
                  Hmin)
           "a" "1.0" square Hex Hdec).
Defined.


Lemma get_In {V : Type} (k : string) (d : Py.dict V) (v : V) :
  Py.get k d = Some v -> In (k, v) d.
Proof.
  induction d as [|[k' v'] d IH]; cbn; [discriminate|].
  destruct (String.eqb_spec k' k) as [->|Hne].
  - intros E. injection E as ->. auto.
  - auto.
Qed.


(** * Further properties of the methods *)

Section Further.

Context {BM : Type} {bucket_manager_ops : BucketManager BM}.

Variable data_backend : DataBackend.
Variable str_round2 : Z -> Z -> string.
Variable float_fails : string -> bool.
Variable human_readable_fails : string -> Z -> bool.

(** *** Configuration *)

(** X1: no call on a constructed sampler changes [batch_size],
    [delete_unwanted_images], [minimum_image_size] or [resolution], however
    the call ends. *)
Theorem configuration_never_changes :
  forall (ops : list operation) (m : @Machine BM),
    same_configuration (self m)
      (self (perform_all data_backend str_round2 float_fails
               human_readable_fails ops m)).
Proof.
  intros ops.
  apply (@respects_perform BM _ data_backend str_round2 float_fails
           human_readable_fails same_configuration);
    unfold same_configuration; cbn; try tauto.
  - intros s1 s2 s3 (A1 & A2 & A3 & A4) (B1 & B2 & B3 & B4).
    repeat split; congruence.
  - intros seen_file previous_state _ s. unfold loaded.
    destruct (saved_seen_images previous_state); cbn; repeat split.
Qed.

(** *** Rotation *)

Lemma change_bucket_with_independent (reset1 reset2 : M unit)
  (m : @Machine BM) :
  filter (fun b => negb (Py.mem b (exhausted_buckets (self m))))
         (buckets (self m)) <> [] ->
  change_bucket_with reset1 m = change_bucket_with reset2 m.
Proof.
  intros Hne. unfold change_bucket_with, get_next_bucket_with, bind, get_self.
  destruct (filter _ _); [congruence|reflexivity].
Qed.

Lemma reset_on_nothing (d : nat) (m : @Machine BM) :
  nothing_seen_or_unseen (self m) = true ->
  reset_buckets_at float_fails human_readable_fails (S d) m
  = (Exc NoImagesFound, m).
Proof. intros H. rewrite reset_buckets_at_S, H. reflexivity. Qed.

Lemma rolled_over_nothing (s : @Sampler BM) :
  load_buckets s = [] -> nothing_seen_or_unseen (rolled_over s) = true.
Proof.
  unfold load_buckets. intros H. apply keys_nil in H.
  unfold nothing_seen_or_unseen. cbn. rewrite H. reflexivity.
Qed.

(** X2: rollovers nest at most once.  The rollover [change_bucket] starts
    from inside a rollover finds nothing seen and no bucket, and raises: with
    room for two levels or for more, [_reset_buckets] ends the same way, and
    never for lack of room. *)
Theorem rollover_nests_at_most_once :
  forall (d : nat) (m : @Machine BM),
    reset_buckets_at float_fails human_readable_fails (S (S d)) m
    = _reset_buckets float_fails human_readable_fails m
    /\ fst (_reset_buckets float_fails human_readable_fails m) <> NoFuel.
Proof.
  intros d m. split.
  - unfold _reset_buckets. rewrite !reset_buckets_at_S.
    destruct (nothing_seen_or_unseen (self m)); [reflexivity|].
    destruct (fst (log_state float_fails human_readable_fails m));
      try reflexivity.
    set (m1 := set_self (rolled_over (self m)) m).
    destruct (filter (fun b => negb (Py.mem b (exhausted_buckets (self m1))))
                (buckets (self m1))) as [|b0 l] eqn:Hf.
    + assert (Hkeys : load_buckets (self m) = []).
      { unfold m1 in Hf. cbn in Hf. rewrite filter_not_mem_nil in Hf.
        exact Hf. }
      assert (Hn : forall d',
                 reset_buckets_at float_fails human_readable_fails (S d') m1
                 = (Exc NoImagesFound, m1))
        by (intros d'; apply reset_on_nothing, rolled_over_nothing, Hkeys).
      transitivity (@Exc unit NoImagesFound, m1).
      * eapply change_bucket_with_none; [exact Hf|apply Hn].
      * symmetry. eapply change_bucket_with_none; [exact Hf|apply Hn].
    + apply change_bucket_with_independent. rewrite Hf. discriminate.
  - destruct (reset_buckets_cases float_fails human_readable_fails m)
      as [[_ H]|[(_ & e & _ & H)|[(_ & _ & H)|(_ & i & b & rs & _ & H)]]];
      cbv zeta in H; rewrite H; discriminate.
Qed.

Lemma change_bucket_post :
  forall m m' : @Machine BM,
    change_bucket float_fails human_readable_fails m = (Ret tt, m') ->
    points_at_available (self m')
    /\ (filter (fun b => negb (Py.mem b (exhausted_buckets (self m))))
               (buckets (self m)) <> [] ->
        exists i, self m' = with_current_bucket (Some i) (self m)).
Proof.
  intros m m' Hrun.
  destruct (filter (fun b => negb (Py.mem b (exhausted_buckets (self m))))
              (buckets (self m))) as [|b0 l] eqn:Hf.
  - split; [|congruence].
    unfold change_bucket, change_bucket_with in Hrun.
    apply bind_inv in Hrun.
    destruct Hrun as [(b & m1 & Hnext & Hrun)|[(e & _ & H)|[_ H]]];
      try discriminate.
    unfold get_next_bucket_with in Hnext.
    unfold bind at 1 in Hnext. unfold get_self at 1 in Hnext.
    rewrite Hf in Hnext. apply bind_inv in Hnext.
    destruct Hnext as [([] & m2 & Hreset & Hnext)|[(e & _ & H)|[_ H]]];
      try discriminate.
    destruct (reset_buckets_cases float_fails human_readable_fails m)
      as [[_ H]|[(_ & e & _ & H)|[(_ & _ & H)|(_ & i & k & rs & _ & H)]]];
      cbv zeta in H; rewrite Hreset in H; try discriminate.
    injection H as ->.
    unfold bind at 1 in Hnext. unfold get_self at 1 in Hnext.
    cbn [self buckets with_current_bucket rolled_over with_seen_images
         with_new_buckets] in Hnext.
    destruct (load_buckets (self m)) as [|k0 ks] eqn:Hkeys;
      [discriminate|].
    match type of Hnext with
    | choice _ ?mm = _ =>
        destruct (choice_cons k0 ks mm) as (x & rs' & Hin & Hc)
    end.
    rewrite Hc in Hnext. injection Hnext as <- <-.
    apply bind_inv in Hrun.
    destruct Hrun as [(j & m3 & Hid & Hrun)|[(e & _ & H)|[_ H]]];
      try discriminate.
    unfold _bucket_name_to_id, bind, get_self, lift in Hid. cbn in Hid.
    rewrite Hkeys in Hid.
    destruct (index_In x (k0 :: ks) Hin) as (j' & Hidx & Hn).
    rewrite Hidx in Hid. injection Hid as Ej Em. subst j m3.
    injection Hrun as <-.
    exists j', x. cbn. rewrite Hkeys. repeat split; auto.
  - assert (Hne : filter
                    (fun b => negb (Py.mem b (exhausted_buckets (self m))))
                    (buckets (self m)) <> [])
      by (rewrite Hf; discriminate).
    destruct (change_bucket_with_available
                (_reset_buckets float_fails human_readable_fails) m Hne)
      as (i & b & rs & Hn & Hex & Hc).
    unfold change_bucket in Hrun. rewrite Hc in Hrun. injection Hrun as <-.
    split; [|intros _; exists i; reflexivity].
    exists i, b. cbn. auto.
Qed.

(** X3: whenever [change_bucket] returns, [current_bucket] is the index of a
    key of [buckets] that is not in [exhausted_buckets], whatever the sampler
    was before; and [change_bucket] changes only [current_bucket] unless it
    has to roll over. *)
Theorem change_bucket_points_at_available :
  forall m m' : @Machine BM,
    change_bucket float_fails human_readable_fails m = (Ret tt, m') ->
    points_at_available (self m')
    /\ (filter (fun b => negb (Py.mem b (exhausted_buckets (self m))))
               (buckets (self m)) <> [] ->
        exists i, self m' = with_current_bucket (Some i) (self m)).
Proof. exact change_bucket_post. Qed.

(** *** Saving, loading and logging *)

(** X4: loading what [save_state] saved gives back [exhausted_buckets],
    [seen_images] (over what the seen file held) and [current_epoch]; the
    saved [buckets] and [current_bucket] are not read: [buckets] is reloaded
    from the bucket manager and [current_bucket] is left as it was. *)
Theorem load_states_restores_saved :
  forall (s : @Sampler BM) (seen_file : Py.dict string) (m : @Machine BM),
    let m' := snd (load_states float_fails human_readable_fails seen_file
                     (save_state s) m) in
    exhausted_buckets (self m') = exhausted_buckets s
    /\ seen_images (self m') = seen_images s
    /\ current_epoch (self m') = current_epoch s
    /\ buckets (self m') = load_buckets (self m)
    /\ current_bucket (self m') = current_bucket (self m)
    /\ same_configuration (self m) (self m').
Proof.
  intros s seen_file m. cbv zeta.
  rewrite load_states_eq, log_state_frame. cbn.
  unfold same_configuration. cbn. repeat split.
Qed.

Lemma get_key {V : Type} (b : string) (d : Py.dict V) :
  In b (Py.keys d) <-> exists v, Py.get b d = Some v.
Proof using Type.
  induction d as [|[k v] d IH]; cbn [Py.keys map Py.get In fst].
  - split; [intros []|intros [v H]; discriminate].
  - destruct (String.eqb_spec k b) as [->|Hne].
    + split; [intros _; exists v; reflexivity|intros _; left; reflexivity].
    + split.
      * intros [E|H]; [exfalso; exact (Hne E)|]. apply IH. exact H.
      * intros H. right. apply IH. exact H.
Qed.

Lemma log_exhausted_none (r : Z) (bs : list string) :
  (forall b,
      In b bs -> float_fails b = false /\ human_readable_fails b r = false) ->
  log_exhausted float_fails human_readable_fails r bs = None.
Proof using Type.
  induction bs as [|b t IH]; intros H; cbn [log_exhausted]; [reflexivity|].
  destruct (H b (or_introl eq_refl)) as [-> ->].
  apply IH. intros b' Hb'. apply H. right. exact Hb'.
Qed.

Lemma log_active_cases (r : Z) (ix : Py.dict (list string))
  (bs : list string) :
  (forall b,
      In b bs -> float_fails b = false /\ human_readable_fails b r = false) ->
  (log_active float_fails human_readable_fails r ix bs = None
   /\ forall b, In b bs -> In b (Py.keys ix))
  \/ (log_active float_fails human_readable_fails r ix bs = Some KeyError
      /\ exists b, In b bs /\ ~ In b (Py.keys ix)).
Proof using Type.
  induction bs as [|b t IH]; intros H; cbn [log_active].
  - left. split; [reflexivity|intros b []].
  - destruct (H b (or_introl eq_refl)) as [-> Hh].
    destruct (Py.get b ix) as [l|] eqn:Hget.
    + rewrite Hh.
      destruct IH as [[H1 H2]|[H1 (b' & Hb' & Hn)]];
        [intros b' Hb'; apply H; right; exact Hb'| |].
      * left. split; [exact H1|].
        intros b' [<-|Hb']; [apply get_key; exists l; exact Hget|].
        exact (H2 b' Hb').
      * right. split; [exact H1|]. exists b'. split; [right; exact Hb'|].
        exact Hn.
    + right. split; [reflexivity|]. exists b. split; [left; reflexivity|].
      intros Hin. apply get_key in Hin. destruct Hin as [v Hv]. congruence.
Qed.

(** X5: [log_state] never changes the sampler, but it evaluates its
    messages whatever the log level: when the keys in [buckets] and in
    [exhausted_buckets] parse as floats and print, it returns exactly when
    every key of [buckets] is still a key of the bucket manager's dict, and
    raises [KeyError] otherwise; keys of [exhausted_buckets] need not be
    there. *)
Theorem log_state_needs_every_active_bucket :
  forall m : @Machine BM,
    (forall b,
        In b (buckets (self m)) \/ In b (exhausted_buckets (self m)) ->
        float_fails b = false
        /\ human_readable_fails b (resolution (self m)) = false) ->
    (log_state float_fails human_readable_fails m = (Ret tt, m)
     /\ forall b,
          In b (buckets (self m)) ->
          In b (Py.keys
                  (aspect_ratio_bucket_indices (bucket_manager (self m)))))
    \/ (log_state float_fails human_readable_fails m = (Exc KeyError, m)
        /\ exists b,
             In b (buckets (self m))
             /\ ~ In b (Py.keys
                          (aspect_ratio_bucket_indices
                             (bucket_manager (self m))))).
Proof.
  intros m Hkeys. unfold log_state, bind, get_self.
  destruct (@log_active_cases (resolution (self m))
              (aspect_ratio_bucket_indices (bucket_manager (self m)))
              (buckets (self m))) as [[-> H]|[-> H]].
  - intros b Hb. apply Hkeys. left. exact Hb.
  - left. rewrite log_exhausted_none; [split; [reflexivity|exact H]|].
    intros b Hb. apply Hkeys. right. exact Hb.
  - right. split; [reflexivity|exact H].
Qed.

(** X6: over a bucket manager with at least one bucket, without a saved
    state and with keys that parse as floats and print, [__init__] returns
    a sampler
    in epoch 1 with every key in [buckets], nothing exhausted, the seen
    file as [seen_images], the arguments as configuration, and
    [current_bucket] at the key one random draw picked. *)
Theorem init_without_saved_state :
  forall (bm : BM) (batch : Z) (delete_unwanted : bool)
         (minimum : option Z) (res_px : Z) (seen_file : Py.dict string)
         (previous_state : SavedState (Py.dict (list string)))
         (rs : list nat),
    saved_exhausted_buckets previous_state = None ->
    saved_current_epoch previous_state = None ->
    saved_seen_images previous_state = None ->
    aspect_ratio_bucket_indices bm <> [] ->
    (forall b,
        In b (Py.keys (aspect_ratio_bucket_indices bm)) ->
        float_fails b = false /\ human_readable_fails b res_px = false) ->
    exists i bucket rs',
      nth_error (Py.keys (aspect_ratio_bucket_indices bm)) i = Some bucket
      /\ __init__ float_fails human_readable_fails bm batch delete_unwanted
           minimum res_px seen_file previous_state rs
         = (Ret tt,
            {| self :=
                 {| bucket_manager := bm; batch_size := batch;
                    delete_unwanted_images := delete_unwanted;
                    minimum_image_size := minimum; resolution := res_px;
                    seen_images := seen_file;
                    buckets := Py.keys (aspect_ratio_bucket_indices bm);
                    buckets_id := 1; exhausted_buckets := [];
                    current_bucket := Some i; current_epoch := 1 |};
               random_state := rs'; yielded := [] |}).
Proof.
  intros bm batch delete_unwanted minimum res_px seen_file previous_state rs
    Hex Hep Hseen Hix Hkeys.
  unfold __init__.
  set (m0 := {| self := blank bm batch delete_unwanted minimum res_px;
                random_state := rs; yielded := [] |}).
  set (m1 := set_self (loaded seen_file previous_state (self m0)) m0).
  assert (Hself : self m1
                  = with_current_epoch 1
                      (with_exhausted_buckets []
                         (with_new_buckets (load_buckets (self m0))
                            (with_seen_images seen_file (self m0))))).
  { unfold m1, loaded. rewrite Hseen, Hex, Hep. reflexivity. }
  assert (Hload : load_states float_fails human_readable_fails seen_file
                    previous_state m0 = (Ret tt, m1)).
  { rewrite load_states_eq. fold m1. apply log_state_ok; rewrite Hself.
    - destruct (@log_active_cases res_px
                  (aspect_ratio_bucket_indices bm)
                  (Py.keys (aspect_ratio_bucket_indices bm)) Hkeys)
        as [[H _]|[_ (b & Hb & Hn)]]; [exact H|].
      exfalso. exact (Hn Hb).
    - apply log_exhausted_none. intros b []. }
  erewrite bind_ret; [|exact Hload].
  destruct (@change_bucket_with_available BM
              (_reset_buckets float_fails human_readable_fails) m1)
    as (i & b & rs' & Hn & _ & Hrun).
  { rewrite Hself. cbn. rewrite filter_not_mem_nil. unfold load_buckets.
    cbn. destruct (aspect_ratio_bucket_indices bm); [congruence|discriminate]. }
  exists i, b, rs'. split.
  - rewrite Hself in Hn. exact Hn.
  - unfold change_bucket. rewrite Hrun, Hself. reflexivity.
Qed.

(** *** The two lists and the index into them *)

Lemma remove_perm (b : string) (l : list string) :
  In b l -> Permutation (b :: Py.remove b l) l.
Proof using Type.
  induction l as [|y t IH]; cbn [Py.remove In]; [intros []|].
  destruct (String.eqb_spec y b) as [->|Hne]; [reflexivity|].
  intros [E|H]; [exfalso; exact (Hne E)|].
  eapply perm_trans; [apply perm_swap|]. apply perm_skip, IH, H.
Qed.

(** X7: [move_to_exhausted] raises before touching anything when
    [current_bucket] is [None] or past the end of [buckets]; otherwise,
    also when the logging that follows raises, the key at [current_bucket]
    has left [buckets] for the end of [exhausted_buckets]: the two lists
    together hold the same keys as before and [buckets] is one shorter. *)
Theorem move_to_exhausted_conserves_keys :
  forall m : @Machine BM,
    let run := move_to_exhausted float_fails human_readable_fails m in
    (current_bucket (self m) = None -> run = (Exc TypeError, m))
    /\ (forall i,
           current_bucket (self m) = Some i ->
           nth_error (buckets (self m)) i = None ->
           run = (Exc IndexError, m))
    /\ (forall i bucket,
           current_bucket (self m) = Some i ->
           nth_error (buckets (self m)) i = Some bucket ->
           self (snd run) = moved bucket (self m)
           /\ exhausted_buckets (self (snd run))
              = exhausted_buckets (self m) ++ [bucket]
           /\ Permutation
                (buckets (self (snd run))
                 ++ exhausted_buckets (self (snd run)))
                (buckets (self m) ++ exhausted_buckets (self m))
           /\ S (List.length (buckets (self (snd run))))
              = List.length (buckets (self m))).
Proof.
  intros m. cbv zeta. rewrite move_to_exhausted_eq.
  split; [|split].
  - intros ->. reflexivity.
  - intros i -> ->. reflexivity.
  - intros i bucket -> Hn. rewrite Hn, log_state_frame.
    cbn [snd self set_self]. split; [reflexivity|]. split; [reflexivity|].
    assert (Hin : In bucket (buckets (self m)))
      by (eapply nth_error_In, Hn).
    pose proof (remove_perm bucket (buckets (self m)) Hin) as Hp.
    split.
    + cbn. rewrite app_assoc.
      eapply perm_trans; [apply Permutation_app_comm|]. cbn [app].
      exact (Permutation_app_tail (exhausted_buckets (self m)) Hp).
    + cbn. apply Permutation_length in Hp. exact Hp.
Qed.

Lemma index_first (x : string) (l : list string) (i : nat) :
  Py.index x l = Some i ->
  nth_error l i = Some x
  /\ forall j, (j < i)%nat -> nth_error l j <> Some x.
Proof using Type.
  revert i. induction l as [|y t IH]; cbn [Py.index]; intros i;
    [discriminate|].
  destruct (String.eqb_spec y x) as [->|Hne].
  - intros E. injection E as <-. split; [reflexivity|].
    intros j Hj. inversion Hj.
  - destruct (Py.index x t) as [k|]; [|discriminate].
    intros E. injection E as <-. destruct (IH k eq_refl) as [H1 H2].
    split; [exact H1|].
    intros [|j] Hj; cbn [nth_error].
    + intros E. injection E as E. exact (Hne E).
    + apply H2. apply Nat.succ_lt_mono. exact Hj.
Qed.

Lemma index_none (x : string) (l : list string) :
  Py.index x l = None -> ~ In x l.
Proof using Type.
  induction l as [|y t IH]; cbn [Py.index In]; [intros _ []|].
  destruct (String.eqb_spec y x) as [->|Hne]; [discriminate|].
  destruct (Py.index x t); [discriminate|].
  intros _ [E|H]; [exact (Hne E)|exact (IH eq_refl H)].
Qed.

Lemma index_nth_nodup (l : list string) (i : nat) (x : string) :
  NoDup l -> nth_error l i = Some x -> Py.index x l = Some i.
Proof using Type.
  revert i. induction l as [|y t IH]; intros i Hnd Hn;
    [destruct i; discriminate|].
  inversion Hnd as [|? ? Hy Ht]; subst. cbn [Py.index].
  destruct i as [|i]; cbn [nth_error] in Hn.
  - injection Hn as ->. rewrite String.eqb_refl. reflexivity.
  - destruct (String.eqb_spec y x) as [->|Hne].
    + exfalso. apply Hy. eapply nth_error_In, Hn.
    + rewrite (IH i Ht Hn). reflexivity.
Qed.

(** X8: [_bucket_name_to_id] never changes the sampler; it returns the
    first index at which [buckets] holds the name and raises [ValueError]
    when the name is not there; and the index of the key found at position
    [i] of a duplicate-free [buckets] is [i] again. *)
Theorem bucket_name_to_id_round_trip :
  forall (m : @Machine BM) (name : string),
    ((exists i,
         _bucket_name_to_id name m = (Ret i, m)
         /\ nth_error (buckets (self m)) i = Some name
         /\ forall j,
              (j < i)%nat -> nth_error (buckets (self m)) j <> Some name)
     \/ (_bucket_name_to_id name m = (Exc ValueError, m)
         /\ ~ In name (buckets (self m))))
    /\ (forall i,
           NoDup (buckets (self m)) ->
           nth_error (buckets (self m)) i = Some name ->
           _bucket_name_to_id name m = (Ret i, m)).
Proof.
  intros m name. unfold _bucket_name_to_id, bind, get_self, lift. split.
  - destruct (Py.index name (buckets (self m))) as [i|] eqn:Hi.
    + left. exists i. destruct (index_first _ _ Hi) as [H1 H2].
      split; [reflexivity|]. split; assumption.
    + right. split; [reflexivity|]. apply index_none, Hi.
  - intros i Hnd Hn. erewrite index_nth_nodup by eassumption. reflexivity.
Qed.

(** *** The two helpers that decide on a rollover *)

(** X9: [_handle_bucket_with_insufficient_images] raises [KeyError] for a
    key the bucket manager does not hold; it counts every image filed under
    the bucket, seen or not: with at least [batch_size] of them it returns
    [False] and changes nothing, and when it returns [True] there were
    fewer and [current_bucket] points at a bucket that is not exhausted. *)
Theorem handle_bucket_counts_all_images :
  forall (bucket : string) (m : @Machine BM),
    let run := _handle_bucket_with_insufficient_images float_fails
                 human_readable_fails bucket m in
    let ix := aspect_ratio_bucket_indices (bucket_manager (self m)) in
    (Py.get bucket ix = None -> run = (Exc KeyError, m))
    /\ (forall images,
           Py.get bucket ix = Some images ->
           batch_size (self m) <= Py.len images ->
           run = (Ret false, m))
    /\ (forall (r : bool) (m' : @Machine BM),
           run = (Ret r, m') ->
           r = true ->
           points_at_available (self m')
           /\ exists images,
                Py.get bucket ix = Some images
                /\ Py.len images < batch_size (self m)).
Proof.
  intros bucket m run ix.
  assert (Hrun :
    run
    = match Py.get bucket ix with
      | None => (Exc KeyError, m)
      | Some images =>
          if Py.len images <? batch_size (self m) then
            ((if Py.mem bucket (exhausted_buckets (self m)) then ret tt
              else move_to_exhausted float_fails human_readable_fails) ;;;
             change_bucket float_fails human_readable_fails ;;;
             ret true) m
          else (Ret false, m)
      end).
  { unfold run, _handle_bucket_with_insufficient_images.
    unfold bind at 1. unfold get_self at 1. unfold bind at 1.
    unfold lift at 1. fold ix.
    destruct (Py.get bucket ix); cbn [of_option]; [|reflexivity].
    destruct (_ <? _); reflexivity. }
  rewrite Hrun. clear Hrun run.
  destruct (Py.get bucket ix) as [images|].
  2:{ split; [reflexivity|]. split; intros; discriminate. }
  split; [intros; discriminate|].
  destruct (Py.len images <? batch_size (self m)) eqn:Hlt.
  - apply Z.ltb_lt in Hlt. split.
    + intros images' E Hge. injection E as <-. exfalso.
      apply (Z.lt_irrefl (Py.len images)).
      eapply Z.lt_le_trans; [exact Hlt|exact Hge].
    + intros r m' Hrun _.
      split; [|exists images; split; [reflexivity|exact Hlt]].
      apply bind_inv in Hrun.
      destruct Hrun as [(u & m1 & _ & Hrun)|[(e & _ & H)|[_ H]]];
        try discriminate.
      apply bind_inv in Hrun.
      destruct Hrun as [([] & m2 & Hchange & Hret)|[(e & _ & H)|[_ H]]];
        try discriminate.
      injection Hret as _ <-.
      exact (proj1 (change_bucket_post _ Hchange)).
  - split.
    + intros images' _ _. reflexivity.
    + intros r m' Hrun Hr. injection Hrun as <- _. discriminate.
Qed.

(** X10: [_reset_if_not_enough_unseen_images] returns [False] and changes
    nothing when the buckets in [buckets] hold at least [batch_size]
    unseen images between them, and when it returns [True] they held fewer
    and a rollover has run: nothing is seen, nothing is exhausted, and
    [current_epoch] is one higher. *)
Theorem reset_if_not_enough_reports_rollover :
  forall (m m' : @Machine BM) (r : bool),
    _reset_if_not_enough_unseen_images float_fails human_readable_fails m
    = (Ret r, m') ->
    exists n,
      total_unseen (self m) (buckets (self m)) = Ret n
      /\ ((r = false /\ m' = m /\ batch_size (self m) <= n)
          \/ (r = true
              /\ n < batch_size (self m)
              /\ seen_images (self m') = []
              /\ exhausted_buckets (self m') = []
              /\ current_epoch (self m') = current_epoch (self m) + 1)).
Proof.
  intros m m' r. unfold _reset_if_not_enough_unseen_images.
  unfold bind at 1. unfold get_self at 1. unfold bind at 1. unfold lift at 1.
  destruct (total_unseen (self m) (buckets (self m))) as [n|e|];
    try discriminate.
  intros Hrun. exists n. split; [reflexivity|].
  destruct (n <? batch_size (self m)) eqn:Hlt.
  - right. apply Z.ltb_lt in Hlt.
    apply bind_inv in Hrun.
    destruct Hrun as [([] & m1 & Hreset & Hret)|[(e & _ & H)|[_ H]]];
      try discriminate.
    injection Hret as <- <-.
    destruct (reset_buckets_cases float_fails human_readable_fails m)
      as [[_ H]|[(_ & e & _ & H)|[(_ & _ & H)|(_ & i & b & rs & _ & H)]]];
      cbv zeta in H; rewrite Hreset in H; try discriminate.
    injection H as ->. cbn. repeat split. exact Hlt.
  - left. apply Z.ltb_ge in Hlt. injection Hrun as <- <-.
    repeat split. exact Hlt.
Qed.

(** *** Unseen images and the size hint *)

Lemma filter_len_le {A : Type} (f : A -> bool) (l : list A) :
  Py.len (filter f l) <= Py.len l.
Proof using Type.
  unfold Py.len. apply Nat2Z.inj_le. induction l as [|a l IH]; cbn.
  - apply Nat.le_refl.
  - destruct (f a); cbn; [apply le_n_S, IH|apply Nat.le_le_succ_r, IH].
Qed.

Lemma len_app {A : Type} (l1 l2 : list A) :
  Py.len (l1 ++ l2) = Py.len l1 + Py.len l2.
Proof using Type.
  unfold Py.len. rewrite length_app. apply Nat2Z.inj_add.
Qed.

Lemma len_nonneg {A : Type} (l : list A) : 0 <= Py.len l.
Proof using Type. unfold Py.len. apply Nat2Z.is_nonneg. Qed.

Lemma all_unseen_le (bm : BM) (ix : Py.dict (list string)) :
  Py.len (flat_map (fun kv => unseen_of bm (snd kv)) ix)
  <= fold_right (fun kv n => Py.len (snd kv) + n) 0 ix.
Proof using Type.
  induction ix as [|[k images] ix IH]; cbn [flat_map fold_right snd].
  - apply Z.le_refl.
  - rewrite len_app. apply Z.add_le_mono; [apply filter_len_le|exact IH].
Qed.

Lemma sizes_nonneg (ix : Py.dict (list string)) :
  0 <= fold_right (fun kv n => Py.len (snd kv) + n) 0 ix.
Proof using Type.
  induction ix as [|[k l] ix IH]; cbn [fold_right snd]; [apply Z.le_refl|].
  apply Z.add_nonneg_nonneg; [apply len_nonneg|exact IH].
Qed.

Lemma bucket_le_sum (b : string) (ix : Py.dict (list string))
  (images : list string) :
  Py.get b ix = Some images ->
  Py.len images <= fold_right (fun kv n => Py.len (snd kv) + n) 0 ix.
Proof using Type.
  induction ix as [|[k l] ix IH]; cbn [Py.get fold_right snd];
    [discriminate|].
  pose proof (sizes_nonneg ix) as Hix. pose proof (len_nonneg l) as Hl.
  destruct (String.eqb k b).
  - intros E. injection E as ->. clear IH. lia.
  - intros H. specialize (IH H). lia.
Qed.

Lemma unseen_of_none_seen (bm : BM) (images : list string) :
  (forall image, is_seen bm image = false) -> unseen_of bm images = images.
Proof using Type.
  intros Hnone. unfold unseen_of.
  induction images as [|x xs IH]; cbn [filter]; [reflexivity|].
  rewrite Hnone. cbn [negb]. f_equal. exact IH.
Qed.

Lemma all_unseen_full (bm : BM) (ix : Py.dict (list string)) :
  (forall image, is_seen bm image = false) ->
  Py.len (flat_map (fun kv => unseen_of bm (snd kv)) ix)
  = fold_right (fun kv n => Py.len (snd kv) + n) 0 ix.
Proof using Type.
  intros Hnone.
  induction ix as [|[k images] ix IH]; cbn [flat_map fold_right snd];
    [reflexivity|].
  rewrite len_app, IH. rewrite unseen_of_none_seen by exact Hnone.
  reflexivity.
Qed.

(** X11: [__len__] is the number of images filed in the bucket manager,
    whatever the sampler has seen or exhausted, and no list of unseen
    images, of one bucket or of all of them, is longer; with nothing
    marked seen the unseen images of all buckets are exactly that many. *)
Theorem len_bounds_unseen :
  forall (s : @Sampler BM) (bucket : option string) (l : list string),
    _get_unseen_images s bucket = Ret l ->
    Py.len l <= __len__ s
    /\ ((forall image, is_seen (bucket_manager s) image = false) ->
        bucket = None ->
        Py.len l = __len__ s).
Proof.
  intros s bucket l.
  assert (Hall :
    forall l',
      Ret (flat_map (fun kv => unseen_of (bucket_manager s) (snd kv))
                    (aspect_ratio_bucket_indices (bucket_manager s)))
      = Ret l' ->
      Py.len l' <= __len__ s).
  { intros l' E. injection E as <-. apply all_unseen_le. }
  destruct bucket as [b|]; cbn [_get_unseen_images].
  - destruct (Py.truthy b).
    + destruct (Py.get b (aspect_ratio_bucket_indices (bucket_manager s)))
        as [images|] eqn:Hget; [|discriminate].
      intros E. injection E as <-. split; [|intros _ H; discriminate].
      eapply Z.le_trans; [apply filter_len_le|].
      exact (bucket_le_sum _ _ Hget).
    + intros E. split; [exact (Hall l E)|intros _ H; discriminate].
  - intros E. split; [exact (Hall l E)|].
    intros Hnone _. injection E as <-. apply all_unseen_full, Hnone.
Qed.

(** X12: for a key that is not the empty string, [_get_unseen_images]
    raises [KeyError] when the bucket manager does not hold the key, and
    otherwise returns those images of the bucket that the bucket manager
    has not seen, each of which is also among the unseen images of all
    buckets; for the empty key it answers as for no key at all. *)
Theorem unseen_images_of_a_bucket :
  forall (s : @Sampler BM) (b : string),
    Py.truthy b = true ->
    let ix := aspect_ratio_bucket_indices (bucket_manager s) in
    (Py.get b ix = None -> _get_unseen_images s (Some b) = Exc KeyError)
    /\ (forall images,
           Py.get b ix = Some images ->
           exists l,
             _get_unseen_images s (Some b) = Ret l
             /\ (forall x,
                    In x l
                    <-> In x images /\ is_seen (bucket_manager s) x = false)
             /\ exists every,
                  _get_unseen_images s None = Ret every /\ incl l every)
    /\ _get_unseen_images s (Some "") = _get_unseen_images s None.
Proof.
  intros s b Hb ix. cbn [_get_unseen_images]. rewrite Hb. fold ix.
  split; [intros ->; reflexivity|]. split; [|reflexivity].
  intros images Hget. rewrite Hget. eexists. split; [reflexivity|].
  split.
  - intros x. unfold unseen_of. rewrite filter_In.
    destruct (is_seen (bucket_manager s) x); cbn [negb];
      split; intros [H1 H2]; split; try assumption; try reflexivity;
      discriminate.
  - eexists. split; [reflexivity|].
    intros x Hx. apply in_flat_map. exists (b, images).
    split; [apply get_In, Hget|exact Hx].
Qed.

(** *** Validation of a draw *)

Lemma get_set_same {V : Type} (k : string) (v : V) (d : Py.dict V) :
  Py.get k (Py.set k v d) = Some v.
Proof using Type.
  induction d as [|[k' v'] d IH]; cbn [Py.set Py.get].
  - rewrite String.eqb_refl. reflexivity.
  - destruct (String.eqb k' k) eqn:E; cbn [Py.get].
    + rewrite String.eqb_refl. reflexivity.
    + rewrite E. exact IH.
Qed.

Lemma get_set_other {V : Type} (k k' : string) (v : V) (d : Py.dict V) :
  k <> k' -> Py.get k' (Py.set k v d) = Py.get k' d.
Proof using Type.
  intros Hne. induction d as [|[k0 v0] d IH]; cbn [Py.set Py.get].
  - destruct (String.eqb_spec k k'); [contradiction|reflexivity].
  - destruct (String.eqb_spec k0 k) as [->|Hk]; cbn [Py.get].
    + destruct (String.eqb_spec k k'); [contradiction|reflexivity].
    + destruct (String.eqb k0 k'); [reflexivity|exact IH].
Qed.

Lemma process_single_image_accepts (image_path bucket : string)
  (m : @Machine BM) :
  exists bm,
    _process_single_image data_backend str_round2 image_path bucket m
    = (if accepts data_backend str_round2 (minimum_image_size (self m))
            bucket image_path
       then Ret (Some image_path) else Ret None,
       set_self (with_bucket_manager bm (self m)) m)
    /\ (accepts data_backend str_round2 (minimum_image_size (self m)) bucket
          image_path = true ->
        bm = bucket_manager (self m)).
Proof using Type.
  rewrite process_single_image_eq. cbv zeta. unfold accepts.
  assert (Hsame : set_self (with_bucket_manager (bucket_manager (self m))
                              (self m)) m = m)
    by (destruct m as [[] ? ?]; reflexivity).
  destruct (exists_ data_backend image_path); cbn [negb andb].
  2:{ eexists. split; [reflexivity|discriminate]. }
  destruct (read_image data_backend image_path) as [image|].
  2:{ exists (bucket_manager (self m)). rewrite Hsame. auto. }
  destruct (minimum_image_size (self m)) as [least|].
  2:{ exists (bucket_manager (self m)). rewrite Hsame. auto. }
  destruct ((width image <? least) || (height image <? least));
    cbn [negb andb].
  { eexists. split; [reflexivity|discriminate]. }
  destruct (exif_transposed image) as [[w h]|].
  2:{ exists (bucket_manager (self m)). rewrite Hsame. auto. }
  destruct (h =? 0); cbn [negb andb].
  { exists (bucket_manager (self m)). rewrite Hsame. auto. }
  destruct (String.eqb (str_round2 w h) bucket); cbn [negb].
  - exists (bucket_manager (self m)). rewrite Hsame. auto.
  - eexists. split; [reflexivity|discriminate].
Qed.

(** What [_validate_and_yield_images_from_samples] returns and leaves. *)
Lemma validate_spec (training : bool) (samples : list string)
  (bucket : string) (m : @Machine BM) :
  exists bm seen,
    _validate_and_yield_images_from_samples data_backend str_round2 training
      samples bucket m
    = (Ret (filter (fun p =>
                      accepts data_backend str_round2
                        (minimum_image_size (self m)) bucket p
                      && Py.truthy p) samples),
       set_self (with_seen_images seen (with_bucket_manager bm (self m))) m)
    /\ (training = false -> seen = seen_images (self m))
    /\ (training = true ->
        forall p,
          (In p (filter (fun p =>
                           accepts data_backend str_round2
                             (minimum_image_size (self m)) bucket p
                           && Py.truthy p) samples) ->
           Py.get p seen = Some bucket)
          /\ (~ In p samples -> Py.get p seen = Py.get p (seen_images (self m)))
          /\ (Py.get p (seen_images (self m)) = Some bucket ->
              Py.get p seen = Some bucket)).
Proof using Type.
  revert m. induction samples as [|q rest IH]; intros m;
    cbn [_validate_and_yield_images_from_samples filter].
  - exists (bucket_manager (self m)), (seen_images (self m)).
    split; [destruct m as [[] ? ?]; reflexivity|].
    split; [reflexivity|]. intros _ p.
    split; [intros []|]. split; [reflexivity|]. intros H. exact H.
  - destruct (process_single_image_accepts q bucket m) as (bm1 & Hp & _).
    set (m1 := set_self (with_bucket_manager bm1 (self m)) m) in *.
    destruct (accepts data_backend str_round2 (minimum_image_size (self m))
                bucket q) eqn:Hok; cbn [andb].
    + erewrite bind_ret by exact Hp. cbv beta iota.
      destruct (Py.truthy q) eqn:Hq.
      * destruct training.
        -- set (m2 := set_self
                        (with_seen_images
                           (Py.set q bucket (seen_images (self m1)))
                           (self m1)) m1).
           destruct (IH m2) as (bm & seen & Hrun & _ & Htrain).
           exists bm, seen. split.
           ++ erewrite bind_ret
                by (erewrite bind_ret by reflexivity; reflexivity).
              erewrite bind_ret by exact Hrun. reflexivity.
           ++ split; [discriminate|]. intros _ p.
              destruct (Htrain eq_refl p) as (H1 & H2 & H3).
              destruct (String.eqb_spec q p) as [->|Hne].
              ** assert (Hp' : Py.get p seen = Some bucket)
                   by (apply H3; apply get_set_same).
                 split; [intros _; exact Hp'|].
                 split; [|intros _; exact Hp'].
                 intros Hn. exfalso. apply Hn. left. reflexivity.
              ** split; [|split].
                 --- intros [E|Hin]; [contradiction|exact (H1 Hin)].
                 --- intros Hn.
                     rewrite H2 by (intros Hin; apply Hn; right; exact Hin).
                     apply get_set_other. exact Hne.
                 --- intros Hs. apply H3. cbn.
                     rewrite get_set_other by exact Hne. exact Hs.
        -- destruct (IH m1) as (bm & seen & Hrun & Hnot & _).
           exists bm, seen. split.
           ++ erewrite bind_ret
                by (erewrite bind_ret by reflexivity; reflexivity).
              erewrite bind_ret by exact Hrun. reflexivity.
           ++ split; [intros _; exact (Hnot eq_refl)|discriminate].
      * destruct (IH m1) as (bm & seen & Hrun & Hnot & Htrain).
        exists bm, seen. split.
        -- erewrite bind_ret by reflexivity.
           erewrite bind_ret by exact Hrun. reflexivity.
        -- split; [exact Hnot|]. intros Ht p.
           destruct (Htrain Ht p) as (H1 & H2 & H3).
           split; [exact H1|]. split; [|exact H3].
           intros Hn. apply H2. intros Hin. apply Hn. right. exact Hin.
    + erewrite bind_ret by exact Hp. cbv beta iota.
      destruct (IH m1) as (bm & seen & Hrun & Hnot & Htrain).
      exists bm, seen. split.
      * erewrite bind_ret by reflexivity.
        erewrite bind_ret by exact Hrun. reflexivity.
      * split; [exact Hnot|]. intros Ht p.
        destruct (Htrain Ht p) as (H1 & H2 & H3).
        split; [exact H1|]. split; [|exact H3].
        intros Hn. apply H2. intros Hin. apply Hn. right. exact Hin.
Qed.

Lemma accepts_spec (s : @Sampler BM) (bucket image_path : string) :
  accepts data_backend str_round2 (minimum_image_size s) bucket image_path
  = true
  <-> passes_all_checks data_backend str_round2 s image_path bucket.
Proof using Type.
  unfold accepts, passes_all_checks, resource_exists, decodes_to,
    large_enough, actual_bucket_of.
  destruct (exists_ data_backend image_path); cbn [andb].
  2:{ split; [discriminate|]. intros [H _]. discriminate. }
  destruct (read_image data_backend image_path) as [image|].
  2:{ split; [discriminate|]. intros [_ (i & H & _)]. discriminate. }
  destruct (minimum_image_size s) as [least|].
  2:{ split; [discriminate|].
      intros [_ (i & _ & (l & H & _) & _)]. discriminate. }
  destruct ((width image <? least) || (height image <? least)) eqn:Hs;
    cbn [negb andb].
  { apply orb_true_iff in Hs. rewrite !Z.ltb_lt in Hs.
    split; [discriminate|].
    intros [_ (i & E & (l & El & Hw & Hh) & _)].
    injection E as <-. injection El as <-. exfalso.
    destruct Hs as [Hs|Hs].
    - exact (Z.lt_irrefl _ (Z.lt_le_trans _ _ _ Hs Hw)).
    - exact (Z.lt_irrefl _ (Z.lt_le_trans _ _ _ Hs Hh)). }
  apply orb_false_iff in Hs. rewrite !Z.ltb_ge in Hs.
  destruct (exif_transposed image) as [[w h]|] eqn:Hexif.
  2:{ split; [discriminate|].
      intros [_ (i & E & _ & (w & h & H & _))]. injection E as <-.
      rewrite Hexif in H. discriminate. }
  destruct (h =? 0) eqn:Hz; cbn [negb andb].
  { apply Z.eqb_eq in Hz. split; [discriminate|].
    intros [_ (i & E & _ & (w' & h' & H & Hnz & _))]. injection E as <-.
    rewrite Hexif in H. injection H as <- <-. contradiction. }
  apply Z.eqb_neq in Hz. rewrite String.eqb_eq. split.
  - intros E. split; [reflexivity|]. exists image. split; [reflexivity|].
    split; [exists least; split; [reflexivity|exact Hs]|].
    exists w, h. split; [exact Hexif|]. split; [exact Hz|].
    symmetry. exact E.
  - intros [_ (i & E & _ & (w' & h' & H & _ & Hk))]. injection E as <-.
    rewrite Hexif in H. injection H as <- <-. symmetry. exact Hk.
Qed.

(** X13: [_validate_and_yield_images_from_samples] never raises and
    returns, in the order of the samples, exactly the samples that pass the
    four checks of validation and are not the empty string; of the sampler
    it changes at most the bucket manager and [seen_images], and it
    neither draws a random number nor yields. *)
Theorem validate_returns_the_accepted_samples :
  forall (training : bool) (samples : list string) (bucket : string)
         (m : @Machine BM),
    let run := _validate_and_yield_images_from_samples data_backend
                 str_round2 training samples bucket m in
    fst run
    = Ret (filter (fun p =>
                     accepts data_backend str_round2
                       (minimum_image_size (self m)) bucket p
                     && Py.truthy p) samples)
    /\ (forall p,
           accepts data_backend str_round2 (minimum_image_size (self m))
             bucket p = true
           <-> passes_all_checks data_backend str_round2 (self m) p bucket)
    /\ buckets (self (snd run)) = buckets (self m)
    /\ exhausted_buckets (self (snd run)) = exhausted_buckets (self m)
    /\ current_bucket (self (snd run)) = current_bucket (self m)
    /\ current_epoch (self (snd run)) = current_epoch (self m)
    /\ random_state (snd run) = random_state m
    /\ yielded (snd run) = yielded m.
Proof.
  intros training samples bucket m. cbv zeta.
  destruct (validate_spec training samples bucket m)
    as (bm & seen & -> & _).
  cbn. split; [reflexivity|]. split; [intros p; apply accepts_spec|].
  repeat split.
Qed.

(** X14: in training mode every path the validation returns is recorded in
    [seen_images] under the bucket it was drawn from, an entry that already
    named that bucket keeps it, and the entry of a path that was not among
    the samples is as before; out of training mode [seen_images] is not
    touched. *)
Theorem validate_records_what_it_returns :
  forall (samples : list string) (bucket : string) (m : @Machine BM),
    let run := _validate_and_yield_images_from_samples data_backend
                 str_round2 true samples bucket m in
    let seen := seen_images (self (snd run)) in
    (forall returned p,
        fst run = Ret returned -> In p returned ->
        Py.get p seen = Some bucket)
    /\ (forall p,
           ~ In p samples -> Py.get p seen = Py.get p (seen_images (self m)))
    /\ (forall p,
           Py.get p (seen_images (self m)) = Some bucket ->
           Py.get p seen = Some bucket)
    /\ seen_images
         (self (snd (_validate_and_yield_images_from_samples data_backend
                       str_round2 false samples bucket m)))
       = seen_images (self m).
Proof.
  intros samples bucket m. cbv zeta.
  destruct (validate_spec true samples bucket m)
    as (bm & seen & -> & _ & Htrain).
  destruct (validate_spec false samples bucket m)
    as (bm' & seen' & -> & Hnot & _).
  cbn [fst snd self set_self seen_images with_seen_images].
  split; [|split; [|split]].
  - intros returned p E Hin. injection E as <-.
    exact (proj1 (Htrain eq_refl p) Hin).
  - intros p. exact (proj1 (proj2 (Htrain eq_refl p))).
  - intros p. exact (proj2 (proj2 (Htrain eq_refl p))).
  - exact (Hnot eq_refl).
Qed.

(** *** What the iterator yields *)

Lemma steady_bind {A B : Type} (c : @M BM A) (k : A -> @M BM B) :
  steady c -> (forall a, steady (k a)) -> steady (bind c k).
Proof using Type.
  intros Hc Hk m. unfold bind. destruct (Hc m) as [H1 H2].
  destruct (c m) as [[a|e|] m1]; cbn [snd] in *; try (split; assumption).
  destruct (Hk a m1) as [H3 H4]. split; congruence.
Qed.

Lemma steady_ret {A : Type} (a : A) : steady (@ret BM A a).
Proof using Type. intros m. split; reflexivity. Qed.

Lemma steady_raise {A : Type} (e : exn) : steady (@raise BM A e).
Proof using Type. intros m. split; reflexivity. Qed.

Lemma steady_out_of_fuel {A : Type} : steady (@out_of_fuel BM A).
Proof using Type. intros m. split; reflexivity. Qed.

Lemma steady_lift {A : Type} (r : res A) : steady (@lift BM A r).
Proof using Type. intros m. split; reflexivity. Qed.

Lemma steady_get_self : steady (@get_self BM).
Proof using Type. intros m. split; reflexivity. Qed.

Lemma steady_choice {A : Type} (l : list A) : steady (@choice BM A l).
Proof using Type.
  intros m. unfold choice. destruct l; [split; reflexivity|].
  destruct (next_random (random_state m)). split; reflexivity.
Qed.

Lemma steady_sample {A : Type} (l : list A) (k : Z) :
  steady (@sample BM A l k).
Proof using Type.
  intros m. unfold sample. destruct (_ || _); [split; reflexivity|].
  destruct (pick_distinct _ _ _). split; reflexivity.
Qed.

Lemma steady_log_state : steady (log_state float_fails human_readable_fails).
Proof using Type. intros m. rewrite log_state_frame. split; reflexivity. Qed.

Lemma steady_update (f : @Sampler BM -> @Sampler BM) :
  (forall s, batch_size (f s) = batch_size s) -> steady (update f).
Proof using Type. intros H m. split; [reflexivity|apply H]. Qed.

Create HintDb steady.

#[local] Hint Resolve steady_ret steady_raise steady_out_of_fuel steady_lift
  steady_get_self steady_choice steady_sample steady_log_state : steady.

Ltac steady_step :=
  first
    [ solve [auto with steady]
    | apply steady_update; intros ?; reflexivity
    | apply steady_bind; [|intros ?]
    | match goal with
      | |- steady (if ?b then _ else _) => destruct b
      | |- steady (match ?x with _ => _ end) => destruct x
      end ].

Ltac steady_auto := repeat steady_step.

Lemma steady_bucket_name_to_id (b : string) :
  steady (@_bucket_name_to_id BM b).
Proof using Type. unfold _bucket_name_to_id. steady_auto. Qed.

Lemma steady_change_bucket_with (reset : @M BM unit) :
  steady reset -> steady (@change_bucket_with BM reset).
Proof using Type.
  intros H. unfold change_bucket_with, get_next_bucket_with.
  apply steady_bind; [|intros b; apply steady_bind;
                        [apply steady_bucket_name_to_id|intros i;
                         apply steady_update; intros s; reflexivity]].
  apply steady_bind; [apply steady_get_self|intros s].
  destruct (filter _ _); [|apply steady_choice].
  apply steady_bind; [exact H|intros _].
  apply steady_bind; [apply steady_get_self|intros s'; apply steady_choice].
Qed.

Lemma steady_reset_buckets_at (d : nat) :
  steady (reset_buckets_at float_fails human_readable_fails d).
Proof using Type.
  induction d as [|d IH]; [apply steady_out_of_fuel|].
  intros m. rewrite reset_buckets_at_S.
  destruct (nothing_seen_or_unseen (self m)); [split; reflexivity|].
  destruct (fst (log_state float_fails human_readable_fails m));
    try (split; reflexivity).
  destruct (steady_change_bucket_with IH
              (set_self (rolled_over (self m)) m)) as [H1 H2].
  split; [exact H1|exact H2].
Qed.

Lemma steady_reset_buckets :
  steady (_reset_buckets float_fails human_readable_fails).
Proof using Type. apply steady_reset_buckets_at. Qed.

Lemma steady_change_bucket :
  steady (change_bucket float_fails human_readable_fails).
Proof using Type.
  apply steady_change_bucket_with, steady_reset_buckets.
Qed.

Lemma steady_move_to_exhausted :
  steady (move_to_exhausted float_fails human_readable_fails).
Proof using Type.
  intros m. rewrite move_to_exhausted_eq.
  destruct (current_bucket (self m)); [|split; reflexivity].
  destruct (nth_error (buckets (self m)) n); [|split; reflexivity].
  rewrite log_state_frame. split; reflexivity.
Qed.

Lemma steady_validate (training : bool) (samples : list string)
  (bucket : string) :
  steady
    (_validate_and_yield_images_from_samples data_backend str_round2 training
       samples bucket).
Proof using Type.
  intros m.
  destruct (validate_spec training samples bucket m) as (bm & seen & -> & _).
  split; reflexivity.
Qed.

#[local] Hint Resolve steady_reset_buckets steady_change_bucket
  steady_move_to_exhausted steady_validate : steady.

Lemma steady_exhaustion_step (id0 : nat) (view : list string) (idx : nat)
  (available : list string) :
  steady
    (exhaustion_step float_fails human_readable_fails id0 view idx available).
Proof using Type. unfold exhaustion_step. steady_auto. Qed.

Lemma sample_returns (population : list string) (k : Z) (m : @Machine BM) :
  0 <= k <= Py.len population ->
  exists xs rs,
    sample population k m = (Ret xs, set_random_state rs m)
    /\ Py.len xs = k.
Proof using Type.
  intros [Hk0 Hk]. unfold sample.
  assert (E : (k <? 0) || (Py.len population <? k) = false).
  { apply orb_false_iff. split; apply Z.ltb_ge; assumption. }
  rewrite E.
  assert (Hn : (Z.to_nat k <= List.length population)%nat)
    by (unfold Py.len in Hk; lia).
  destruct (@pick_distinct_spec _ (Z.to_nat k) population (random_state m)
              Hn) as [Hlen _].
  destruct (pick_distinct _ _ _) as [xs rs]. cbn [fst] in Hlen.
  exists xs, rs. split; [reflexivity|]. unfold Py.len. lia.
Qed.

Lemma bind_cases {A B : Type} (c : @M BM A) (k : A -> @M BM B)
  (m : @Machine BM) :
  (exists a m1, c m = (Ret a, m1) /\ bind c k m = k a m1)
  \/ (snd (bind c k m) = snd (c m) /\ forall b, fst (bind c k m) <> Ret b).
Proof using Type.
  unfold bind. destruct (c m) as [[a|e|] m1].
  - left. exists a, m1. split; reflexivity.
  - right. split; [reflexivity|intros b; discriminate].
  - right. split; [reflexivity|intros b; discriminate].
Qed.

Lemma well_sized_weaken (size : Z) (P Q : Prop) (new : list emission) :
  (P -> Q) -> Forall (well_sized size P) new -> Forall (well_sized size Q) new.
Proof using Type.
  intros HPQ H. induction H as [|e new He _ IH]; constructor; [|exact IH].
  destruct e; [exact (HPQ He)|exact He].
Qed.

Lemma draw_batches_yields (fuel : nat) (training : bool) (bucket : string) :
  forall (available acc : list string) (ae : bool) (m : @Machine BM),
    (0 < batch_size (self m) -> short_of_a_batch (batch_size (self m)) acc) ->
    exists new,
      yielded
        (snd (draw_batches data_backend str_round2 float_fails
                human_readable_fails fuel training bucket available acc ae m))
      = yielded m ++ new
      /\ Forall (well_sized (batch_size (self m)) False) new
      /\ batch_size
           (self
              (snd (draw_batches data_backend str_round2 float_fails
                      human_readable_fails fuel training bucket available acc
                      ae m)))
         = batch_size (self m)
      /\ (forall av acc' ae',
            fst (draw_batches data_backend str_round2 float_fails
                   human_readable_fails fuel training bucket available acc ae
                   m)
            = Ret (av, acc', ae') ->
            0 < batch_size (self m) ->
            short_of_a_batch (batch_size (self m)) acc').
Proof using Type.
  induction fuel as [|f IH]; intros available acc ae m Hacc.
  { exists []. cbn. rewrite app_nil_r.
    split; [reflexivity|split; [constructor|split; [reflexivity|]]].
    intros; discriminate. }
  cbn [draw_batches]. erewrite bind_ret by reflexivity.
  destruct (Py.len available >=? batch_size (self m)) eqn:G.
  2:{ exists []. cbn. rewrite app_nil_r.
      split; [reflexivity|split; [constructor|split; [reflexivity|]]].
      intros av acc' ae' E Hpos. injection E as _ <- _. exact (Hacc Hpos). }
  destruct (steady_sample available (batch_size (self m)) m) as [Hy1 Hb1].
  match goal with
  | |- context [bind ?c ?k m] =>
      destruct (bind_cases c k m) as [(samples & m1 & Es & ->)|[Hs Hn]]
  end.
  2:{ exists []. rewrite Hs, app_nil_r.
      split; [exact Hy1|split; [constructor|split; [exact Hb1|]]].
      intros av acc' ae' E. destruct (Hn _ E). }
  rewrite Es in Hy1, Hb1. cbn [snd] in Hy1, Hb1.
  assert (Hlen : 0 < batch_size (self m) ->
                 Py.len samples = batch_size (self m)).
  { intros Hpos.
    destruct (@sample_returns available (batch_size (self m)) m)
      as (xs & rs & Es' & Hxs).
    - split; [lia|]. apply Z.geb_le in G. exact G.
    - rewrite Es in Es'. injection Es' as -> _. exact Hxs. }
  destruct (validate_spec training samples bucket m1)
    as (bm & seen & Ev & _).
  erewrite bind_ret by exact Ev. cbv zeta.
  set (to_yield := filter _ samples) in *.
  assert (Hty : Py.len to_yield <= Py.len samples)
    by apply filter_len_le.
  set (m2 := set_self _ m1).
  assert (Hy2 : yielded m2 = yielded m) by exact Hy1.
  assert (Hb2 : batch_size (self m2) = batch_size (self m)) by exact Hb1.
  destruct (Py.len (acc ++ to_yield) >=? batch_size (self m)) eqn:G2.
  - erewrite bind_ret by reflexivity.
    set (m3 := {| self := self m2; random_state := random_state m2;
                  yielded := yielded m2 ++ [BatchRun (acc ++ to_yield)] |}).
    assert (St : steady
                   (change_bucket float_fails human_readable_fails ;;;
                    ret (available, @nil string, false)))
      by steady_auto.
    destruct (St m3) as [Hy3 Hb3].
    exists [BatchRun (acc ++ to_yield)].
    split; [rewrite Hy3; cbn [m3 yielded]; rewrite Hy2; reflexivity|].
    split.
    { constructor; [|constructor]. cbn [well_sized]. apply Z.geb_le in G2.
      split; [exact G2|]. intros Hpos. rewrite len_app.
      specialize (Hlen Hpos).
      destruct (Hacc Hpos) as [->|Hlt];
        [change (Py.len (@nil string)) with 0|]; lia. }
    split; [rewrite Hb3; exact Hb2|].
    intros av acc' ae' E _.
    match type of E with
    | fst (bind ?c ?k ?mm) = _ =>
        destruct (bind_cases c k mm) as [(a & m4 & _ & Ek)|[_ Hn]]
    end.
    + rewrite Ek in E. cbn in E. injection E as _ <- _. left. reflexivity.
    + destruct (Hn _ E).
  - erewrite bind_ret by reflexivity.
    assert (Hacc2 : 0 < batch_size (self m2) ->
                    short_of_a_batch (batch_size (self m2)) (acc ++ to_yield)).
    { intros _. right. rewrite Hb2.
      destruct (Z.geb_spec (Py.len (acc ++ to_yield)) (batch_size (self m)));
        [discriminate|assumption]. }
    destruct (_get_unseen_images (self m2) (Some bucket)) as [l|e|].
    + erewrite bind_ret by reflexivity.
      destruct (IH l (acc ++ to_yield) false m2 Hacc2)
        as (new & Hy & Hf & Hb & Hpost).
      exists new. rewrite Hy, Hb, Hy2, Hb2. rewrite Hb2 in Hf, Hpost.
      split; [reflexivity|split; [exact Hf|split; [reflexivity|exact Hpost]]].
    + exists []. cbn. rewrite app_nil_r.
      split; [exact Hy2|split; [constructor|split; [exact Hb2|]]].
      intros; discriminate.
    + exists []. cbn. rewrite app_nil_r.
      split; [exact Hy2|split; [constructor|split; [exact Hb2|]]].
      intros; discriminate.
Qed.

Lemma for_each_bucket_yields (fuel : nat) (training : bool) (id0 : nat) :
  forall (view : list string) (idx : nat) (acc : list string) (ae : bool)
         (m : @Machine BM),
    (0 < batch_size (self m) -> short_of_a_batch (batch_size (self m)) acc) ->
    exists new,
      yielded
        (snd (for_each_bucket data_backend str_round2 float_fails
                human_readable_fails fuel training id0 view idx acc ae m))
      = yielded m ++ new
      /\ Forall (well_sized (batch_size (self m)) False) new
      /\ batch_size
           (self
              (snd (for_each_bucket data_backend str_round2 float_fails
                      human_readable_fails fuel training id0 view idx acc ae
                      m)))
         = batch_size (self m)
      /\ (forall acc' ae',
            fst (for_each_bucket data_backend str_round2 float_fails
                   human_readable_fails fuel training id0 view idx acc ae m)
            = Ret (acc', ae') ->
            0 < batch_size (self m) ->
            short_of_a_batch (batch_size (self m)) acc').
Proof using Type.
  induction fuel as [|f IH]; intros view idx acc ae m Hacc.
  { exists []. cbn. rewrite app_nil_r.
    split; [reflexivity|split; [constructor|split; [reflexivity|]]].
    intros; discriminate. }
  cbn [for_each_bucket]. erewrite bind_ret by reflexivity. cbv zeta.
  destruct (nth_error (iterated_list id0 view (self m)) idx) as [bucket|].
  2:{ exists []. cbn. rewrite app_nil_r.
      split; [reflexivity|split; [constructor|split; [reflexivity|]]].
      intros acc' ae' E Hpos. injection E as <- _. exact (Hacc Hpos). }
  destruct (_get_unseen_images (self m) (Some bucket)) as [available|e|].
  2,3: exists []; cbn; rewrite app_nil_r;
       (split; [reflexivity|split; [constructor|split; [reflexivity|]]]);
       intros; discriminate.
  erewrite bind_ret by reflexivity.
  destruct (draw_batches_yields f training bucket available ae m Hacc)
    as (new1 & Hy1 & Hf1 & Hb1 & Hpost1).
  match goal with
  | |- context [bind ?c ?k m] =>
      destruct (bind_cases c k m) as [(r & m1 & Ed & ->)|[Hs Hn]]
  end.
  2:{ exists new1. rewrite Hs.
      split; [exact Hy1|split; [exact Hf1|split; [exact Hb1|]]].
      intros acc' ae' E. destruct (Hn _ E). }
  rewrite Ed in Hy1, Hb1, Hpost1. cbn [fst snd] in Hy1, Hb1, Hpost1.
  destruct r as [[available' acc1] ae1].
  specialize (Hpost1 _ _ _ eq_refl).
  destruct (steady_exhaustion_step id0 (iterated_list id0 view (self m)) idx
              available' m1) as [Hy2 Hb2].
  match goal with
  | |- context [bind ?c ?k m1] =>
      destruct (bind_cases c k m1) as [(view' & m2 & Ee & ->)|[Hs Hn]]
  end.
  2:{ exists new1. rewrite Hs, Hy2, Hb2.
      split; [exact Hy1|split; [exact Hf1|split; [exact Hb1|]]].
      intros acc' ae' E. destruct (Hn _ E). }
  rewrite Ee in Hy2, Hb2. cbn [snd] in Hy2, Hb2.
  assert (Hacc2 : 0 < batch_size (self m2) ->
                  short_of_a_batch (batch_size (self m2)) acc1).
  { rewrite Hb2, Hb1. exact Hpost1. }
  destruct (IH view' (S idx) acc1 ae1 m2 Hacc2)
    as (new2 & Hy & Hf & Hb & Hpost).
  rewrite Hb2, Hb1 in Hf, Hpost.
  exists (new1 ++ new2). rewrite Hy, Hb, Hy2, Hy1, Hb2, Hb1, app_assoc.
  split; [reflexivity|].
  split; [apply Forall_app; split; assumption|].
  split; [reflexivity|exact Hpost].
Qed.

Lemma steady_yield_random_image_if_not_training (training : bool) :
  steady (@_yield_random_image_if_not_training BM _ training).
Proof using Type.
  unfold _yield_random_image_if_not_training, _yield_random_image.
  steady_auto.
Qed.

Lemma training_pass_yields (fuel : nat) (training : bool)
  (acc : list string) (m : @Machine BM) :
  (0 < batch_size (self m) -> short_of_a_batch (batch_size (self m)) acc) ->
  exists new,
    yielded
      (snd (training_pass data_backend str_round2 float_fails
              human_readable_fails fuel training acc m))
    = yielded m ++ new
    /\ Forall (well_sized (batch_size (self m)) False) new
    /\ batch_size
         (self
            (snd (training_pass data_backend str_round2 float_fails
                    human_readable_fails fuel training acc m)))
       = batch_size (self m)
    /\ (forall acc',
          fst (training_pass data_backend str_round2 float_fails
                 human_readable_fails fuel training acc m)
          = Ret acc' ->
          0 < batch_size (self m) ->
          short_of_a_batch (batch_size (self m)) acc').
Proof using Type.
  intros Hacc. unfold training_pass. erewrite bind_ret by reflexivity.
  destruct (for_each_bucket_yields fuel training (buckets_id (self m))
              (buckets (self m)) 0 true m Hacc)
    as (new & Hy & Hf & Hb & Hpost).
  match goal with
  | |- context [bind ?c ?k m] =>
      destruct (bind_cases c k m) as [(r & m1 & Ed & ->)|[Hs Hn]]
  end.
  2:{ exists new. rewrite Hs.
      split; [exact Hy|split; [exact Hf|split; [exact Hb|]]].
      intros acc' E. destruct (Hn _ E). }
  rewrite Ed in Hy, Hb, Hpost. cbn [fst snd] in Hy, Hb, Hpost.
  destruct r as [acc1 ae1]. specialize (Hpost _ _ eq_refl).
  assert (St : steady
                 (if ae1
                  then _reset_buckets float_fails human_readable_fails
                  else ret tt))
    by steady_auto.
  destruct (St m1) as [Hy2 Hb2].
  match goal with
  | |- context [bind ?c ?k m1] =>
      destruct (bind_cases c k m1) as [(u & m2 & Er & ->)|[Hs Hn]]
  end.
  - rewrite Er in Hy2, Hb2. cbn [snd] in Hy2, Hb2. exists new. cbn.
    rewrite Hy2, Hb2.
    split; [exact Hy|split; [exact Hf|split; [exact Hb|]]].
    intros acc' E. injection E as <-. exact Hpost.
  - exists new. rewrite Hs, Hy2, Hb2.
    split; [exact Hy|split; [exact Hf|split; [exact Hb|]]].
    intros acc' E. destruct (Hn _ E).
Qed.

Lemma iter_pass_yields (fuel : nat) (training : bool) (acc : list string)
  (m : @Machine BM) :
  (0 < batch_size (self m) -> short_of_a_batch (batch_size (self m)) acc) ->
  exists new,
    yielded
      (snd (iter_pass data_backend str_round2 float_fails
              human_readable_fails fuel training acc m))
    = yielded m ++ new
    /\ Forall (well_sized (batch_size (self m)) (training = false)) new
    /\ batch_size
         (self
            (snd (iter_pass data_backend str_round2 float_fails
                    human_readable_fails fuel training acc m)))
       = batch_size (self m)
    /\ (forall acc',
          fst (iter_pass data_backend str_round2 float_fails
                 human_readable_fails fuel training acc m)
          = Ret acc' ->
          0 < batch_size (self m) ->
          short_of_a_batch (batch_size (self m)) acc').
Proof using Type.
  intros Hacc. unfold iter_pass.
  destruct (steady_yield_random_image_if_not_training training m)
    as [Hy1 Hb1].
  match goal with
  | |- context [bind ?c ?k m] =>
      destruct (bind_cases c k m) as [(early & m1 & Ee & ->)|[Hs Hn]]
  end.
  2:{ exists []. rewrite Hs, app_nil_r.
      split; [exact Hy1|split; [constructor|split; [exact Hb1|]]].
      intros acc' E. destruct (Hn _ E). }
  rewrite Ee in Hy1, Hb1. cbn [snd] in Hy1, Hb1.
  assert (Hacc1 : 0 < batch_size (self m1) ->
                  short_of_a_batch (batch_size (self m1)) acc)
    by (rewrite Hb1; exact Hacc).
  assert (Hpass :
            exists new,
              yielded
                (snd (training_pass data_backend str_round2 float_fails
                        human_readable_fails fuel training acc m1))
              = yielded m ++ new
              /\ Forall (well_sized (batch_size (self m)) (training = false))
                   new
              /\ batch_size
                   (self
                      (snd (training_pass data_backend str_round2 float_fails
                              human_readable_fails fuel training acc m1)))
                 = batch_size (self m)
              /\ (forall acc',
                    fst (training_pass data_backend str_round2 float_fails
                           human_readable_fails fuel training acc m1)
                    = Ret acc' ->
                    0 < batch_size (self m) ->
                    short_of_a_batch (batch_size (self m)) acc')).
  { destruct (@training_pass_yields fuel training acc m1 Hacc1)
      as (new & Hy & Hf & Hb & Hpost).
    rewrite Hb1 in Hf, Hpost. exists new. rewrite Hy, Hb, Hy1, Hb1.
    split; [reflexivity|].
    split; [|split; [reflexivity|exact Hpost]].
    eapply well_sized_weaken; [|exact Hf]. intros []. }
  destruct early as [image_path|]; [|exact Hpass].
  destruct (Py.truthy image_path); [|exact Hpass].
  exists [EarlyYield image_path]. cbn. rewrite Hy1, Hb1.
  split; [reflexivity|].
  split; [|split; [reflexivity|]].
  - constructor; [|constructor]. cbn.
    destruct training; [|reflexivity].
    cbn in Ee. discriminate.
  - intros acc' E. injection E as <-. exact Hacc.
Qed.

Lemma iter_passes_yields (fuel : nat) (flags : list bool) :
  forall (acc : list string) (m : @Machine BM),
    (0 < batch_size (self m) -> short_of_a_batch (batch_size (self m)) acc) ->
    exists per_pass : list (list emission),
      yielded
        (snd (iter_passes data_backend str_round2 float_fails
                human_readable_fails fuel flags acc m))
      = yielded m ++ List.concat per_pass
      /\ (List.length per_pass <= List.length flags)%nat
      /\ forall i training new,
           nth_error flags i = Some training ->
           nth_error per_pass i = Some new ->
           Forall (well_sized (batch_size (self m)) (training = false)) new.
Proof using Type.
  induction flags as [|training later IH]; intros acc m Hacc.
  { exists []. cbn. rewrite app_nil_r.
    split; [reflexivity|split; [apply Nat.le_refl|]].
    intros [|i] t new H; discriminate H. }
  cbn [iter_passes].
  destruct (@iter_pass_yields fuel training acc m Hacc)
    as (new1 & Hy1 & Hf1 & Hb1 & Hpost1).
  match goal with
  | |- context [bind ?c ?k m] =>
      destruct (bind_cases c k m) as [(acc1 & m1 & Ep & ->)|[Hs Hn]]
  end.
  2:{ exists [new1]. rewrite Hs. cbn [List.concat]. rewrite app_nil_r.
      split; [exact Hy1|]. split; [cbn; apply le_n_S, Nat.le_0_l|].
      intros [|i] t new Ht Hnew.
      - cbn in Ht, Hnew. injection Ht as <-. injection Hnew as <-.
        exact Hf1.
      - destruct i; discriminate Hnew. }
  rewrite Ep in Hy1, Hb1, Hpost1. cbn [fst snd] in Hy1, Hb1, Hpost1.
  specialize (Hpost1 _ eq_refl).
  assert (Hacc1 : 0 < batch_size (self m1) ->
                  short_of_a_batch (batch_size (self m1)) acc1)
    by (rewrite Hb1; exact Hpost1).
  destruct (IH acc1 m1 Hacc1) as (rest & Hy2 & Hlen & Hf2).
  rewrite Hb1 in Hf2.
  exists (new1 :: rest). cbn [List.concat]. rewrite Hy2, Hy1, app_assoc.
  split; [reflexivity|]. split; [cbn; apply le_n_S, Hlen|].
  intros [|i] t new Ht Hnew.
  - cbn in Ht, Hnew. injection Ht as <-. injection Hnew as <-. exact Hf1.
  - cbn in Ht, Hnew. exact (Hf2 i t new Ht Hnew).
Qed.

(** X15: what [__iter__] adds to what has been yielded, however the run
    ends, splits into what each pass yielded, pass by pass in the order of
    the mode flag's answers.  A batch run holds at least [batch_size] paths
    and, for a positive [batch_size], fewer than twice as many; and a
    single path is yielded only in a pass for which the flag said not
    training. *)
Theorem iter_yields_well_sized_runs :
  forall (fuel : nat) (flags : list bool) (m : @Machine BM),
    let run :=
      __iter__ data_backend str_round2 float_fails human_readable_fails fuel
        flags m in
    exists per_pass : list (list emission),
      yielded (snd run) = yielded m ++ List.concat per_pass
      /\ (List.length per_pass <= List.length flags)%nat
      /\ forall i training new e,
           nth_error flags i = Some training ->
           nth_error per_pass i = Some new ->
           In e new ->
           match e with
           | BatchRun examples =>
               batch_size (self m) <= Py.len examples
               /\ (0 < batch_size (self m) ->
                   Py.len examples < 2 * batch_size (self m))
           | EarlyYield _ => training = false
           end.
Proof using Type.
  intros fuel flags m run.
  destruct (iter_passes_yields fuel flags (acc := []) m)
    as (per_pass & Hy & Hlen & Hf).
  { intros _. left. reflexivity. }
  exists per_pass. split; [exact Hy|]. split; [exact Hlen|].
  intros i training new e Ht Hnew He.
  specialize (Hf i training new Ht Hnew). rewrite Forall_forall in Hf.
  exact (Hf e He).
Qed.

(** *** The current bucket between passes *)

Lemma on_return_bind {A B : Type} (P Q R : @Sampler BM -> Prop)
  (c : @M BM A) (k : A -> @M BM B) :
  on_return P Q c -> (forall a, on_return Q R (k a)) ->
  on_return P R (bind c k).
Proof using Type.
  intros Hc Hk m r m' HP Hrun. apply bind_inv in Hrun.
  destruct Hrun as [(a & m1 & Hcm & Hka)|[(e & _ & H)|[_ H]]];
    [|discriminate H|discriminate H].
  exact (Hk a m1 r m' (Hc m a m1 HP Hcm) Hka).
Qed.

Lemma on_return_weaken {A : Type} (P P' Q : @Sampler BM -> Prop)
  (c : @M BM A) :
  (forall s, P' s -> P s) -> on_return P Q c -> on_return P' Q c.
Proof using Type. intros HP Hc m r m' H. apply Hc, HP, H. Qed.

Lemma on_return_same {A : Type} (P : @Sampler BM -> Prop) (c : @M BM A) :
  (forall m, self (snd (c m)) = self m) -> on_return P P c.
Proof using Type.
  intros Hc m r m' HP Hrun. specialize (Hc m). rewrite Hrun in Hc.
  cbn [snd] in Hc. rewrite Hc. exact HP.
Qed.

Lemma on_return_ret {A : Type} (P : @Sampler BM -> Prop) (a : A) :
  on_return P P (@ret BM A a).
Proof using Type. apply on_return_same. reflexivity. Qed.

Lemma on_return_lift {A : Type} (P : @Sampler BM -> Prop) (r : res A) :
  on_return P P (@lift BM A r).
Proof using Type. apply on_return_same. intros m. destruct r; reflexivity. Qed.

Lemma on_return_get_self (P : @Sampler BM -> Prop) :
  on_return P P (@get_self BM).
Proof using Type. apply on_return_same. reflexivity. Qed.

Lemma on_return_emit (P : @Sampler BM -> Prop) (e : emission) :
  on_return P P (@emit BM e).
Proof using Type. apply on_return_same. reflexivity. Qed.

Lemma on_return_out_of_fuel {A : Type} (P Q : @Sampler BM -> Prop) :
  on_return P Q (@out_of_fuel BM A).
Proof using Type. intros m r m' _ H. discriminate H. Qed.

Lemma on_return_choice {A : Type} (P : @Sampler BM -> Prop) (l : list A) :
  on_return P P (@choice BM A l).
Proof using Type.
  apply on_return_same. intros m. unfold choice.
  destruct l; [reflexivity|]. destruct (next_random _). reflexivity.
Qed.

Lemma on_return_sample {A : Type} (P : @Sampler BM -> Prop) (l : list A)
  (k : Z) :
  on_return P P (@sample BM A l k).
Proof using Type.
  apply on_return_same. intros m. unfold sample.
  destruct (_ || _); [reflexivity|]. destruct (pick_distinct _ _ _).
  reflexivity.
Qed.

Lemma on_return_log_state (P : @Sampler BM -> Prop) :
  on_return P P (log_state float_fails human_readable_fails).
Proof using Type.
  apply on_return_same. intros m. rewrite log_state_frame. reflexivity.
Qed.

Lemma points_at_available_ext (s s' : @Sampler BM) :
  buckets s' = buckets s ->
  exhausted_buckets s' = exhausted_buckets s ->
  current_bucket s' = current_bucket s ->
  points_at_available s -> points_at_available s'.
Proof using Type.
  intros Hb He Hc (i & b & H1 & H2 & H3). exists i, b.
  rewrite Hb, He, Hc. split; [exact H1|split; [exact H2|exact H3]].
Qed.

Lemma on_return_validate (training : bool) (samples : list string)
  (bucket : string) :
  on_return points_at_available points_at_available
    (_validate_and_yield_images_from_samples data_backend str_round2 training
       samples bucket).
Proof using Type.
  intros m r m' HP Hrun.
  destruct (validate_spec training samples bucket m) as (bm & seen & E & _).
  rewrite E in Hrun. injection Hrun as _ <-.
  eapply points_at_available_ext; [| | |exact HP]; reflexivity.
Qed.

Lemma on_return_change_bucket (P : @Sampler BM -> Prop) :
  on_return P points_at_available
    (change_bucket float_fails human_readable_fails).
Proof using Type.
  intros m [] m' _ Hrun. exact (proj1 (change_bucket_post m Hrun)).
Qed.

Lemma on_return_reset_buckets (P : @Sampler BM -> Prop) :
  on_return P points_at_available
    (_reset_buckets float_fails human_readable_fails).
Proof using Type.
  intros m r m' _ Hrun.
  destruct (reset_buckets_cases float_fails human_readable_fails m)
    as [[_ H]|[(_ & e & _ & H)|[(_ & _ & H)|(_ & i & b & rs & Hi & H)]]];
    cbv zeta in H; rewrite H in Hrun; try discriminate Hrun.
  injection Hrun as _ <-. exists i, b.
  split; [reflexivity|]. split; [exact Hi|]. intros [].
Qed.

Lemma on_return_exhaustion_step (id0 : nat) (view : list string) (idx : nat)
  (available : list string) :
  on_return points_at_available points_at_available
    (exhaustion_step float_fails human_readable_fails id0 view idx available).
Proof using Type.
  unfold exhaustion_step.
  eapply on_return_bind; [apply on_return_get_self|intros s].
  destruct (exhaustion_guard s idx available); [|apply on_return_ret].
  eapply on_return_weaken with (P := fun _ => True); [intros; exact I|].
  eapply on_return_bind with (Q := fun _ => True);
    [intros m r m' _ _; exact I|intros _].
  eapply on_return_bind with (Q := fun _ => True);
    [intros m r m' _ _; exact I|intros _].
  eapply on_return_bind; [apply on_return_get_self|intros s'].
  eapply on_return_bind; [apply on_return_change_bucket|intros _].
  apply on_return_ret.
Qed.

Lemma on_return_draw_batches (fuel : nat) (training : bool)
  (bucket : string) :
  forall (available acc : list string) (ae : bool),
    on_return points_at_available points_at_available
      (draw_batches data_backend str_round2 float_fails human_readable_fails
         fuel training bucket available acc ae).
Proof using Type.
  induction fuel as [|f IH]; intros available acc ae;
    [apply on_return_out_of_fuel|].
  cbn [draw_batches].
  eapply on_return_bind; [apply on_return_get_self|intros s].
  destruct (_ >=? _); [|apply on_return_ret].
  eapply on_return_bind; [apply on_return_sample|intros samples].
  eapply on_return_bind; [apply on_return_validate|intros to_yield].
  cbv zeta. destruct (_ >=? _).
  - eapply on_return_bind; [apply on_return_emit|intros _].
    eapply on_return_bind; [apply on_return_change_bucket|intros _].
    apply on_return_ret.
  - eapply on_return_bind; [apply on_return_get_self|intros s'].
    eapply on_return_bind; [apply on_return_lift|intros l].
    apply IH.
Qed.

Lemma on_return_for_each_bucket (fuel : nat) (training : bool) (id0 : nat) :
  forall (view : list string) (idx : nat) (acc : list string) (ae : bool),
    on_return points_at_available points_at_available
      (for_each_bucket data_backend str_round2 float_fails
         human_readable_fails fuel training id0 view idx acc ae).
Proof using Type.
  induction fuel as [|f IH]; intros view idx acc ae;
    [apply on_return_out_of_fuel|].
  cbn [for_each_bucket].
  eapply on_return_bind; [apply on_return_get_self|intros s]. cbv zeta.
  destruct (nth_error _ idx) as [bucket|]; [|apply on_return_ret].
  eapply on_return_bind; [apply on_return_lift|intros available].
  eapply on_return_bind; [apply on_return_draw_batches|intros [[av acc'] ae']].
  eapply on_return_bind; [apply on_return_exhaustion_step|intros view'].
  apply IH.
Qed.

Lemma on_return_iter_pass (fuel : nat) (training : bool)
  (acc : list string) :
  on_return points_at_available points_at_available
    (iter_pass data_backend str_round2 float_fails human_readable_fails fuel
       training acc).
Proof using Type.
  assert (Hpass : on_return points_at_available points_at_available
                    (training_pass data_backend str_round2 float_fails
                       human_readable_fails fuel training acc)).
  { unfold training_pass.
    eapply on_return_bind; [apply on_return_get_self|intros s].
    eapply on_return_bind; [apply on_return_for_each_bucket|intros [acc' ae]].
    eapply on_return_bind; [|intros _; apply on_return_ret].
    destruct ae; [apply on_return_reset_buckets|apply on_return_ret]. }
  unfold iter_pass.
  eapply on_return_bind with (Q := points_at_available).
  { unfold _yield_random_image_if_not_training, _yield_random_image.
    destruct (negb training); [|apply on_return_ret].
    eapply on_return_bind; [|intros p; apply on_return_ret].
    eapply on_return_bind; [apply on_return_get_self|intros s].
    eapply on_return_bind; [apply on_return_choice|intros b].
    eapply on_return_bind; [apply on_return_lift|intros l].
    apply on_return_choice. }
  intros [image_path|]; [|exact Hpass].
  destruct (Py.truthy image_path); [|exact Hpass].
  eapply on_return_bind; [apply on_return_emit|intros _; apply on_return_ret].
Qed.

(** X16: [current_bucket] stays valid from pass to pass.  If it is the index
    in [buckets] of a bucket that is not in [exhausted_buckets] when
    [__iter__]'s loop starts, then after any number of passes that ran to
    their end without an exception it is again such an index, whatever was
    drawn, moved or rolled over in between. *)
Theorem current_bucket_valid_after_passes :
  forall (fuel : nat) (flags : list bool) (batch_accumulator : list string)
         (m m' : @Machine BM) (left_over : list string),
    points_at_available (self m) ->
    iter_passes data_backend str_round2 float_fails human_readable_fails fuel
      flags batch_accumulator m
    = (Ret left_over, m') ->
    points_at_available (self m').
Proof using Type.
  intros fuel flags. induction flags as [|training later IH];
    intros acc m m' left_over HP Hrun.
  - cbn in Hrun. injection Hrun as _ <-. exact HP.
  - cbn [iter_passes] in Hrun. apply bind_inv in Hrun.
    destruct Hrun as [(acc1 & m1 & Hpass & Hrest)|[(e & _ & H)|[_ H]]];
      [|discriminate H|discriminate H].
    apply (IH acc1 m1 m' left_over); [|exact Hrest].
    exact (@on_return_iter_pass fuel training acc m acc1 m1 HP Hpass).
Qed.

End Further.

(** ** The further properties on the runs of [Runs] *)

Lemma change_bucket_points_at_available_witness :
  change_bucket float_fails human_readable_fails (snd lopsided_start)
  = (Ret tt,
     snd (change_bucket float_fails human_readable_fails
            (snd lopsided_start)))
  /\ points_at_available
       (self (snd (change_bucket float_fails human_readable_fails
                     (snd lopsided_start)))).
Proof.
  assert (H : change_bucket float_fails human_readable_fails
                (snd lopsided_start)
              = (Ret tt,
                 snd (change_bucket float_fails human_readable_fails
                        (snd lopsided_start))))
    by (vm_compute; reflexivity).
  split; [exact H|].
  exact (proj1 (@change_bucket_points_at_available Store.t _ float_fails
                  human_readable_fails (snd lopsided_start) _ H)).
Defined.

Lemma log_state_needs_every_active_bucket_witness :
  not_a_decimal "N/A" = true
  /\ log_state not_a_decimal human_readable_fails (snd first_run)
     = (Ret tt, snd first_run).
Proof.
  split; [reflexivity|].
  destruct (@log_state_needs_every_active_bucket Store.t _ not_a_decimal
              human_readable_fails (snd first_run))
    as [[H _]|[H _]].
  - intros b Hb. vm_compute in Hb.
    destruct Hb as [[<-|[<-|[]]]|[<-|[]]]; split; reflexivity.
  - exact H.
  - vm_compute in H. discriminate H.
Defined.

Lemma init_without_saved_state_witness :
  not_a_decimal "N/A" = true
  /\ exists m,
       __init__ not_a_decimal human_readable_fails lopsided 2 false
         (Some 64) 1024 [] no_saved_state []
       = (Ret tt, m)
       /\ buckets (self m) = ["1.0"; "2.0"]
       /\ exhausted_buckets (self m) = []
       /\ current_epoch (self m) = 1.
Proof.
  split; [reflexivity|].
  destruct (@init_without_saved_state Store.t _ not_a_decimal
              human_readable_fails lopsided 2 false (Some 64) 1024 []
              no_saved_state [])
    as (i & bucket & rs' & _ & H).
  - reflexivity.
  - reflexivity.
  - reflexivity.
  - discriminate.
  - intros b [<-|[<-|[]]]; split; reflexivity.
  - eexists. split; [exact H|].
    split; [reflexivity|split; reflexivity].
Defined.

Lemma reset_if_not_enough_reports_rollover_witness :
  exists m',
    _reset_if_not_enough_unseen_images float_fails human_readable_fails
      (preview [])
    = (Ret true, m')
    /\ total_unseen (self (preview [])) (buckets (self (preview [])))
       = Ret 1
    /\ current_epoch (self m') = 2.
Proof.
  eexists. split; [vm_compute; reflexivity|].
  match goal with
  | |- _ /\ current_epoch (self ?m') = _ =>
      destruct (@reset_if_not_enough_reports_rollover Store.t _ float_fails
                  human_readable_fails (preview []) m' true)
        as (n & Hn & [(H & _)|(_ & _ & _ & _ & He)])
  end.
  - vm_compute. reflexivity.
  - discriminate H.
  - split; [vm_compute; reflexivity|exact He].
Defined.

Lemma len_bounds_unseen_witness :
  Py.len ["a"; "b"; "c"; "d"; "e"] <= __len__ (self (snd lopsided_start)).
Proof.
  refine (proj1 (@len_bounds_unseen Store.t _ (self (snd lopsided_start))
                   (Some "1.0") ["a"; "b"; "c"; "d"; "e"] _)).
  vm_compute. reflexivity.
Defined.

Lemma unseen_images_of_a_bucket_witness :
  _get_unseen_images (self (snd lopsided_start)) (Some "")
  = _get_unseen_images (self (snd lopsided_start)) None.
Proof.
  refine (proj2 (proj2 (@unseen_images_of_a_bucket Store.t _
                          (self (snd lopsided_start)) "1.0" _))).
  reflexivity.
Defined.

Lemma current_bucket_valid_after_passes_witness :
  points_at_available (self (snd first_start))
  /\ points_at_available
       (self (snd (iter_passes (backend three_buckets_files) str_round2
                     float_fails human_readable_fails 20 [true; false; true]
                     [] (snd first_start)))).
Proof.
  assert (H : points_at_available (self (snd first_start))).
  { exists 0%nat, "1.0". vm_compute.
    split; [reflexivity|split; [reflexivity|intros []]]. }
  split; [exact H|].
  refine (@current_bucket_valid_after_passes Store.t _
            (backend three_buckets_files) str_round2 float_fails
            human_readable_fails 20 [true; false; true] [] (snd first_start)
            _ [] H _).
  vm_compute. reflexivity.
Defined.
